(** * mruby-timer-thread: a shallow embedding of [src/timer_thread.c]

    The C file implements [Timer::POSIX] (a POSIX interval timer wrapped in an
    mruby object) and [RTSignal.get].  The embedding follows the file top to
    bottom: the signal table and its lookups, the value and exception model
    of the mruby host, the heap and kernel state the timer object owns, and
    the methods registered by [mrb_mruby_timer_thread_gem_init]. *)

From stdpp Require Import gmap strings.
From Stdlib Require Import ZArith Lia Ascii String.

Set Warnings "-register-all".
Local Open Scope string_scope.
Local Open Scope Z_scope.

(** ** C integers *)

Module CInt.

(** Two's complement reduction of [z] to a signed [w]-bit integer. *)
Definition wrap (w : Z) (z : Z) : Z :=
  (z + 2 ^ (w - 1)) mod 2 ^ w - 2 ^ (w - 1).

Definition INT_BIT : Z := 32.
Definition INT_MIN : Z := - 2 ^ 31.
Definition INT_MAX : Z := 2 ^ 31 - 1.

(** [(int)e]: conversion of a wider integer to [int]. *)
Definition to_int (z : Z) : Z := wrap INT_BIT z.

(** [a + b] on [int].  Signed overflow has no defined result in C; the
    embedding takes the two's complement result the compiled code gives. *)
Definition int_add (a b : Z) : Z := wrap INT_BIT (a + b).

Definition in_int (z : Z) : Prop := INT_MIN <= z <= INT_MAX.

End CInt.

(** ** The platform

    [<signal.h>], [<time.h>] and [<limits.h>] are not part of the repository:
    what the file takes from them is a parameter of the embedding. *)

(** What a [double] holds besides the finite numbers. *)
Inductive float_special := FNaN | FPosInf | FNegInf.

(** A float that has no value in [unsigned long]: one whose integral part
    is negative or too large, or one that is no number. *)
Inductive unfit_float :=
  | Unfit_integral (x : Z)
  | Unfit_special (s : float_special).

Record platform := {
  (** value of a signal macro, by macro name; [None] when it is not defined
      (the [#ifdef] tests of [siglist]) *)
  sigmacro : string -> option Z;
  (** macros the file uses outside any [#ifdef] *)
  SIGINT : Z;
  SIGALRM : Z;
  SIGRTMIN : Z;
  SIGRTMAX : Z;
  CLOCK_REALTIME : Z;
  (** [#ifdef SIGEV_THREAD] in [mrb_timer_posix_init] *)
  has_SIGEV_THREAD : bool;
  (** width of [long], which [strtol] returns *)
  LONG_BIT : Z;
  (** [(unsigned long)f] for a float that has no value in the type: C
      leaves the conversion undefined there, and what is stored is whatever
      the compiled conversion leaves *)
  ulong_of_unfit : unfit_float -> Z
}.

(** What the embedding relies on about a platform: signal numbers are small
    positive [int]s and the real-time range is not empty. *)
Record platform_ok (p : platform) : Prop := {
  SIGALRM_pos : 0 < SIGALRM p <= CInt.INT_MAX;
  SIGRTMIN_pos : 0 < SIGRTMIN p;
  SIGRT_range : SIGRTMIN p <= SIGRTMAX p <= CInt.INT_MAX;
  LONG_BIT_ok : 32 <= LONG_BIT p
}.

(** Linux on x86-64 with glibc (LP64). *)
Definition linux_sigmacro (m : string) : option Z :=
  if String.eqb m "SIGHUP" then Some 1
  else if String.eqb m "SIGQUIT" then Some 3
  else if String.eqb m "SIGILL" then Some 4
  else if String.eqb m "SIGTRAP" then Some 5
  else if String.eqb m "SIGABRT" then Some 6
  else if String.eqb m "SIGIOT" then Some 6
  else if String.eqb m "SIGBUS" then Some 7
  else if String.eqb m "SIGFPE" then Some 8
  else if String.eqb m "SIGKILL" then Some 9
  else if String.eqb m "SIGUSR1" then Some 10
  else if String.eqb m "SIGSEGV" then Some 11
  else if String.eqb m "SIGUSR2" then Some 12
  else if String.eqb m "SIGPIPE" then Some 13
  else if String.eqb m "SIGTERM" then Some 15
  else if String.eqb m "SIGCHLD" then Some 17
  else if String.eqb m "SIGCLD" then Some 17
  else if String.eqb m "SIGCONT" then Some 18
  else if String.eqb m "SIGSTOP" then Some 19
  else if String.eqb m "SIGTSTP" then Some 20
  else if String.eqb m "SIGTTIN" then Some 21
  else if String.eqb m "SIGTTOU" then Some 22
  else if String.eqb m "SIGURG" then Some 23
  else if String.eqb m "SIGXCPU" then Some 24
  else if String.eqb m "SIGXFSZ" then Some 25
  else if String.eqb m "SIGVTALRM" then Some 26
  else if String.eqb m "SIGPROF" then Some 27
  else if String.eqb m "SIGWINCH" then Some 28
  else if String.eqb m "SIGIO" then Some 29
  else if String.eqb m "SIGPOLL" then Some 29
  else if String.eqb m "SIGPWR" then Some 30
  else if String.eqb m "SIGSYS" then Some 31
  else None.

(** The conversion as gcc compiles it for x86-64: [cvttsd2si] on the float
    when it is below [2 ^ 63], and otherwise on the float less [2 ^ 63] with
    the top bit of the result flipped; [cvttsd2si] gives [2 ^ 63] as a bit
    pattern for what does not fit a signed [long], and for NaN. *)
Definition linux_ulong_of_unfit (u : unfit_float) : Z :=
  match u with
  | Unfit_integral x =>
      if x <? 0 then (if - 2 ^ 63 <=? x then x + 2 ^ 64 else 2 ^ 63) else 0
  | Unfit_special FPosInf => 0
  | Unfit_special _ => 2 ^ 63
  end.

Definition linux_x86_64 : platform := {|
  sigmacro := linux_sigmacro;
  SIGINT := 2;
  SIGALRM := 14;
  SIGRTMIN := 34;
  SIGRTMAX := 64;
  CLOCK_REALTIME := 0;
  has_SIGEV_THREAD := true;
  LONG_BIT := 64;
  ulong_of_unfit := linux_ulong_of_unfit
|}.

(** ** C strings and [strtol] *)

Module CString.

Definition NUL : ascii := Ascii.ascii_of_N 0.

(** The C string a character buffer denotes: its bytes up to the first
    NUL.  [strcmp], [strncmp] and [strtol] see nothing past it. *)
Fixpoint c_str (buf : string) : string :=
  match buf with
  | EmptyString => EmptyString
  | String c r => if Ascii.eqb c NUL then EmptyString else String c (c_str r)
  end.

(** [s + n] for a pointer into a string. *)
Fixpoint advance (n : nat) (s : string) : string :=
  match n, s with
  | O, _ => s
  | S n', String _ r => advance n' r
  | S _, EmptyString => EmptyString
  end.

(** [strcmp(a, b) == 0] *)
Definition strcmp_eq (a b : string) : bool := String.eqb a b.

(** [memcmp(lit, s, 3) == 0] and [strncmp(lit, s, 2) == 0] for a literal
    [lit] of exactly that many characters: the first mismatch, if any,
    comes no later than the terminator of [s]. *)
Fixpoint starts_with (lit s : string) : bool :=
  match lit, s with
  | EmptyString, _ => true
  | String a lit', String b s' => Ascii.eqb a b && starts_with lit' s'
  | String _ _, EmptyString => false
  end.

Definition isspace (c : ascii) : bool :=
  let n := Ascii.N_of_ascii c in
  (N.eqb n 32 || (N.leb 9 n && N.leb n 13))%bool.

Definition digit_val (c : ascii) : option Z :=
  let n := Z.of_N (Ascii.N_of_ascii c) in
  if (48 <=? n) && (n <=? 57) then Some (n - 48)
  else if (97 <=? n) && (n <=? 122) then Some (n - 97 + 10)
  else if (65 <=? n) && (n <=? 90) then Some (n - 65 + 10)
  else None.

Fixpoint skip_space (s : string) : string :=
  match s with
  | String c r => if isspace c then skip_space r else s
  | EmptyString => s
  end.

(** The longest run of digits valid in [base], accumulated from [acc]. *)
Fixpoint digits (base : Z) (s : string) (acc : Z) : Z :=
  match s with
  | EmptyString => acc
  | String c r =>
      match digit_val c with
      | Some d => if d <? base then digits base r (acc * base + d) else acc
      | None => acc
      end
  end.

(** Base detection of [strtol(_, _, 0)]: [0x]/[0X] is hexadecimal, a
    leading [0] octal, anything else decimal. *)
Definition magnitude (s : string) : Z :=
  match s with
  | String c0 (String c1 r) =>
      if Ascii.eqb c0 "0"%char && (Ascii.eqb c1 "x"%char || Ascii.eqb c1 "X"%char)
      then digits 16 r 0
      else if Ascii.eqb c0 "0"%char then digits 8 s 0
      else digits 10 s 0
  | _ => digits 10 s 0
  end.

Definition clamp (w : Z) (z : Z) : Z :=
  Z.max (- 2 ^ (w - 1)) (Z.min (2 ^ (w - 1) - 1) z).

(** [strtol(s, NULL, 0)] for a [long] of [w] bits: white space, an
    optional sign, the digits; no digits give 0; a value out of range
    gives [LONG_MAX] or [LONG_MIN]. *)
Definition strtol (w : Z) (s : string) : Z :=
  match skip_space s with
  | String c r =>
      if Ascii.eqb c "-"%char then clamp w (- magnitude r)
      else if Ascii.eqb c "+"%char then clamp w (magnitude r)
      else clamp w (magnitude (String c r))
  | EmptyString => 0
  end.

End CString.

(** ** The signal table *)

Section SignalDirectory.

Context (p : platform).

(** An entry guarded by [#ifdef macro]. *)
Definition ifdef (macro signm : string) : list (string * Z) :=
  match sigmacro p macro with
  | Some signo => [(signm, signo)]
  | None => []
  end.

(** [siglist], without its [{NULL, 0}] terminator.  [SIGINT] is listed
    unconditionally; [SIGALRM] is used outside [#ifdef] further down, so
    its entry is present wherever the file compiles. *)
Definition siglist : list (string * Z) :=
  [("EXIT", 0)]
  ++ ifdef "SIGHUP" "HUP"
  ++ [("INT", SIGINT p)]
  ++ ifdef "SIGQUIT" "QUIT"
  ++ ifdef "SIGILL" "ILL"
  ++ ifdef "SIGTRAP" "TRAP"
  ++ ifdef "SIGABRT" "ABRT"
  ++ ifdef "SIGIOT" "IOT"
  ++ ifdef "SIGEMT" "EMT"
  ++ ifdef "SIGFPE" "FPE"
  ++ ifdef "SIGKILL" "KILL"
  ++ ifdef "SIGBUS" "BUS"
  ++ ifdef "SIGSEGV" "SEGV"
  ++ ifdef "SIGSYS" "SYS"
  ++ ifdef "SIGPIPE" "PIPE"
  ++ [("ALRM", SIGALRM p)]
  ++ ifdef "SIGTERM" "TERM"
  ++ ifdef "SIGURG" "URG"
  ++ ifdef "SIGSTOP" "STOP"
  ++ ifdef "SIGTSTP" "TSTP"
  ++ ifdef "SIGCONT" "CONT"
  ++ ifdef "SIGCHLD" "CHLD"
  ++ match sigmacro p "SIGCLD" with
     | Some signo => [("CLD", signo)]
     | None => ifdef "SIGCHLD" "CLD"
     end
  ++ ifdef "SIGTTIN" "TTIN"
  ++ ifdef "SIGTTOU" "TTOU"
  ++ ifdef "SIGIO" "IO"
  ++ ifdef "SIGXCPU" "XCPU"
  ++ ifdef "SIGXFSZ" "XFSZ"
  ++ ifdef "SIGVTALRM" "VTALRM"
  ++ ifdef "SIGPROF" "PROF"
  ++ ifdef "SIGWINCH" "WINCH"
  ++ ifdef "SIGUSR1" "USR1"
  ++ ifdef "SIGUSR2" "USR2"
  ++ ifdef "SIGLOST" "LOST"
  ++ ifdef "SIGMSG" "MSG"
  ++ ifdef "SIGPWR" "PWR"
  ++ ifdef "SIGPOLL" "POLL"
  ++ ifdef "SIGDANGER" "DANGER"
  ++ ifdef "SIGMIGRATE" "MIGRATE"
  ++ ifdef "SIGPRE" "PRE"
  ++ ifdef "SIGGRANT" "GRANT"
  ++ ifdef "SIGRETRACT" "RETRACT"
  ++ ifdef "SIGSOUND" "SOUND"
  ++ ifdef "SIGINFO" "INFO".

(** The [for] loop of [signm2signo]: the first entry whose name is [nm]. *)
Fixpoint siglist_lookup (sigs : list (string * Z)) (nm : string) : option Z :=
  match sigs with
  | [] => None
  | (signm, signo) :: rest =>
      if CString.strcmp_eq signm nm then Some signo else siglist_lookup rest nm
  end.

Definition signm2signo (nm : string) : Z :=
  match siglist_lookup siglist nm with
  | Some signo => signo
  | None =>
      if CString.strcmp_eq "RT0" nm then SIGRTMIN p
      else if CString.starts_with "RT" nm then
        let ret := CInt.to_int (CString.strtol (LONG_BIT p) (CString.advance 2 nm)) in
        if (ret =? 0) || (CInt.int_add (SIGRTMIN p) ret >? SIGRTMAX p)
        then 0
        else CInt.int_add (SIGRTMIN p) ret
      else 0
  end.

End SignalDirectory.

(** ** The mruby host: values and exceptions *)

(** A hash key: a symbol or a string, each with its text. *)
Inductive hkey :=
  | Sym (name : string)
  | Str (text : string).

#[global] Instance hkey_eq_dec : EqDecision hkey.
Proof. solve_decision. Defined.

#[global] Instance hkey_countable : Countable hkey.
Proof.
  refine (inj_countable'
            (fun k => match k with Sym s => inl s | Str s => inr s end)
            (fun x => match x with inl s => Sym s | inr s => Str s end) _).
  intros []; reflexivity.
Defined.

(** The values the methods inspect with [mrb_type], [mrb_nil_p],
    [mrb_fixnum_p], [mrb_float_p] and [mrb_hash_p].  A finite float is the
    dyadic number [m * 2 ^ e]; the other floats are NaN and the two
    infinities. *)
Inductive mrb_value :=
  | mrb_nil_value
  | mrb_false_value
  | mrb_true_value
  | mrb_fixnum_value (n : Z)
  | mrb_float_value (m e : Z)
  | mrb_float_special_value (s : float_special)
  | mrb_symbol_value (name : string)
  | mrb_str_value (buf : string)
  | mrb_hash_value (h : gmap hkey mrb_value)
  (** the receiver of a method: a [MRB_TT_DATA] object, by identity *)
  | mrb_obj_value (self : Z).

Inductive exc_class :=
  | E_RUNTIME_ERROR
  | E_ARGUMENT_ERROR
  | E_TYPE_ERROR
  | E_NOTIMP_ERROR
  | E_NOMETHOD_ERROR
  (** what [mrb_sys_fail] raises, with [errno] *)
  | E_SYSTEMCALL_ERROR (errno : Z).

(** How a C function of the gem ends: it returns, it leaves through
    [mrb_raise] (a non-local exit), or it does something C leaves undefined
    (a NULL or dangling pointer is followed). *)
Inductive outcome (A : Type) :=
  | Ok (a : A)
  | Raise (cls : exc_class) (msg : string)
  | Undefined.
Arguments Ok {A} a.
Arguments Raise {A} cls msg.
Arguments Undefined {A}.

Definition is_argument_error {A} (r : outcome A) : bool :=
  match r with
  | Raise E_ARGUMENT_ERROR _ => true
  | _ => false
  end.

Definition mrb_nil_p (v : mrb_value) : bool :=
  match v with mrb_nil_value => true | _ => false end.

(** [mrb_bool]: everything but [nil] and [false] is true. *)
Definition mrb_bool (v : mrb_value) : bool :=
  match v with mrb_nil_value | mrb_false_value => false | _ => true end.

(** [mrb_hash_get]: [nil] when the key is absent. *)
Definition mrb_hash_get (h : gmap hkey mrb_value) (key : hkey) : mrb_value :=
  default mrb_nil_value (h !! key).

(** [Hash#has_key?], called through [mrb_funcall]. *)
Definition has_key (h : gmap hkey mrb_value) (key : hkey) : mrb_value :=
  match h !! key with
  | Some _ => mrb_true_value
  | None => mrb_false_value
  end.

Definition MRB_TIMER_POSIX_KEY_SIGNO : hkey := Sym "signal".
Definition MRB_TIMER_POSIX_KEY_CLOCK_ID : hkey := Sym "clock_id".
Definition MRB_TIMER_POSIX_KEY_THREAD_ID : hkey := Sym "thread_id".

Definition EINVAL : Z := 22.

Section Resolve.

Context (p : platform).

(** [mrb_to_signo] from its label [str_signal] on; [s] is the C string. *)
Definition str_signal (s : string) : outcome Z :=
  let s := if CString.starts_with "SIG" s then CString.advance 3 s else s in
  let sig := signm2signo p s in
  if (sig =? 0) && negb (CString.strcmp_eq s "EXIT")
  then Raise E_ARGUMENT_ERROR "unsupported signal"
  else Ok sig.

(** [mrb_to_signo].  A symbol always has a name here, so the
    ["bad signal"] exit of the [MRB_TT_SYMBOL] case is not reachable;
    [mrb_string_type] raises a [TypeError] for what is not a string. *)
Definition mrb_to_signo (vsig : mrb_value) : outcome Z :=
  match vsig with
  | mrb_fixnum_value n =>
      let sig := CInt.to_int n in
      if (sig <? 0) || (sig >=? SIGRTMAX p)
      then Raise E_ARGUMENT_ERROR "invalid signal number (%S)"
      else Ok sig
  | mrb_symbol_value name => str_signal (CString.c_str name)
  | mrb_str_value buf => str_signal (CString.c_str buf)
  | _ => Raise E_TYPE_ERROR "expected String"
  end.

(** [mrb_rtsignal_get], from the index [mrb_get_args] has stored. *)
Definition mrb_rtsignal_get (idx : Z) : outcome mrb_value :=
  if CInt.int_add (SIGRTMIN p) (CInt.to_int idx) >? SIGRTMAX p
  then Raise E_ARGUMENT_ERROR "RTSignal indx too large"
  else Ok (mrb_fixnum_value (CInt.int_add (SIGRTMIN p) (CInt.to_int idx))).

End Resolve.

(** The decimal numeral of a non-negative integer, most significant digit
    first, as a caller builds the token ["RT" ++ i]. *)
Module Decimal.

Definition digit_char (d : Z) : ascii := Ascii.ascii_of_N (Z.to_N (48 + d)).

Fixpoint render (fuel : nat) (n : Z) (acc : string) : string :=
  match fuel with
  | O => acc
  | S fuel' =>
      let acc' := String (digit_char (n mod 10)) acc in
      if n <? 10 then acc' else render fuel' (n / 10) acc'
  end.

(** A numeral has no more decimal digits than binary ones. *)
Definition of_Z (n : Z) : string :=
  render (S (Z.to_nat (Z.log2 n))) n EmptyString.

End Decimal.

Definition rt_token (i : Z) : string := "RT" ++ Decimal.of_Z i.

(** ** The heap and the kernel the timer object lives in *)

Record mrb_timer_posix_thread_param := {
  prm_signo : Z;
  prm_thread_id : Z
}.

Record mrb_timer_posix_data := {
  timer_ptr : Z;
  timer_signo : Z;
  clockid : Z;
  thread_param_ptr : option Z
}.

(** [sigev_notify]; [NOTIFY_ZERO] is what [memset] leaves. *)
Inductive notify := NOTIFY_ZERO | SIGEV_NONE | SIGEV_SIGNAL | SIGEV_THREAD.

Record sigevent := {
  sigev_notify : notify;
  sigev_signo : Z;
  (** [sigev_value.sival_ptr] *)
  sival_ptr : option Z;
  (** whether [sigev_notify_function] is [mrb_timer_posix_thread_func] *)
  sigev_notify_function : bool
}.

Record timespec := { tv_sec : Z; tv_nsec : Z }.
Record itimerspec := { it_value : timespec; it_interval : timespec }.

(** What an [mrb_malloc]ed block holds; [None] until it is written. *)
Inductive block :=
  | Blk_param (prm : mrb_timer_posix_thread_param)
  | Blk_timer (id : option Z)
  | Blk_data (d : option mrb_timer_posix_data).

Inductive kcall :=
  | K_timer_create (clock : Z) (sev : option sigevent)
  | K_timer_settime (id : Z) (ts : itimerspec)
  | K_timer_gettime (id : Z)
  | K_timer_delete (id : Z).

Record ktimer := {
  kt_clock : Z;
  kt_sev : option sigevent;
  kt_spec : itimerspec
}.

Record world := {
  (** live [mrb_malloc] blocks, by address *)
  heap : gmap Z block;
  (** the next address [mrb_malloc] hands out *)
  brk : Z;
  (** live kernel timers, by [timer_t] *)
  ktimers : gmap Z ktimer;
  next_timer : Z;
  (** kernel calls made so far, latest first *)
  kcalls : list kcall;
  (** [DATA_PTR] of each object; absent means NULL *)
  data_ptr : gmap Z Z
}.

Definition empty_world : world := {|
  heap := ∅; brk := 1; ktimers := ∅; next_timer := 1; kcalls := []; data_ptr := ∅
|}.

(** What the kernel answers is its own business: [None] is success, [Some e]
    is failure with [errno = e]. *)
Record kernel := {
  create_errno : world -> Z -> option sigevent -> option Z;
  settime_errno : world -> Z -> itimerspec -> option Z;
  gettime_result : world -> Z -> Z + itimerspec
}.

(** Computations that read and change the world and may leave early. *)
Definition M (A : Type) : Type := world -> outcome A * world.

Definition ret {A} (a : A) : M A := fun w => (Ok a, w).

Definition bind {A B} (c : M A) (k : A -> M B) : M B :=
  fun w =>
    match c w with
    | (Ok a, w') => k a w'
    | (Raise cls msg, w') => (Raise cls msg, w')
    | (Undefined, w') => (Undefined, w')
    end.

Notation "'do' x <- c ; k" := (bind c (fun x => k))
  (at level 10, x pattern, c at level 100, k at level 200).
Notation "c ;; k" := (bind c (fun _ => k))
  (at level 100, k at level 200, right associativity).

Definition mrb_raise {A} (cls : exc_class) (msg : string) : M A :=
  fun w => (Raise cls msg, w).

Definition undefined {A} : M A := fun w => (Undefined, w).

Definition lift {A} (r : outcome A) : M A := fun w => (r, w).

Definition mrb_sys_fail {A} (errno : Z) (msg : string) : M A :=
  mrb_raise (E_SYSTEMCALL_ERROR errno) msg.

Definition mrb_malloc (b : block) : M Z :=
  fun w =>
    (Ok (brk w),
     {| heap := <[brk w := b]> (heap w); brk := brk w + 1;
        ktimers := ktimers w; next_timer := next_timer w;
        kcalls := kcalls w; data_ptr := data_ptr w |}).

Definition mrb_free (a : Z) : M unit :=
  fun w =>
    match heap w !! a with
    | Some _ =>
        (Ok tt,
         {| heap := delete a (heap w); brk := brk w;
            ktimers := ktimers w; next_timer := next_timer w;
            kcalls := kcalls w; data_ptr := data_ptr w |})
    | None => (Undefined, w)
    end.

Definition store (a : Z) (b : block) : M unit :=
  fun w =>
    match heap w !! a with
    | Some _ =>
        (Ok tt,
         {| heap := <[a := b]> (heap w); brk := brk w;
            ktimers := ktimers w; next_timer := next_timer w;
            kcalls := kcalls w; data_ptr := data_ptr w |})
    | None => (Undefined, w)
    end.

(** [*data] for a [mrb_timer_posix_data *]. *)
Definition load_data (a : Z) : M mrb_timer_posix_data :=
  fun w =>
    match heap w !! a with
    | Some (Blk_data (Some d)) => (Ok d, w)
    | _ => (Undefined, w)
    end.

(** [*timer_ptr] *)
Definition load_timer (a : Z) : M Z :=
  fun w =>
    match heap w !! a with
    | Some (Blk_timer (Some id)) => (Ok id, w)
    | _ => (Undefined, w)
    end.

(** [DATA_PTR(self)] read and written. *)
Definition get_DATA_PTR (self : Z) : M (option Z) :=
  fun w => (Ok (data_ptr w !! self), w).

Definition set_DATA_PTR (self : Z) (v : option Z) : M unit :=
  fun w =>
    (Ok tt,
     {| heap := heap w; brk := brk w;
        ktimers := ktimers w; next_timer := next_timer w;
        kcalls := kcalls w;
        data_ptr := match v with
                    | Some a => <[self := a]> (data_ptr w)
                    | None => delete self (data_ptr w)
                    end |}).

Definition log (c : kcall) (w : world) : world :=
  {| heap := heap w; brk := brk w;
     ktimers := ktimers w; next_timer := next_timer w;
     kcalls := c :: kcalls w; data_ptr := data_ptr w |}.

Definition zero_spec : itimerspec :=
  {| it_value := {| tv_sec := 0; tv_nsec := 0 |};
     it_interval := {| tv_sec := 0; tv_nsec := 0 |} |}.

Section Kernel.

Context (k : kernel).

(** [timer_create(clock, sev, tp)]: [None] for 0, [Some errno] for -1.
    On success the new timer's id is written to [*tp]. *)
Definition timer_create (clock : Z) (sev : option sigevent) (tp : Z) : M (option Z) :=
  fun w =>
    let w1 := log (K_timer_create clock sev) w in
    match create_errno k w clock sev with
    | Some e => (Ok (Some e), w1)
    | None =>
        let id := next_timer w in
        (Ok None,
         {| heap := <[tp := Blk_timer (Some id)]> (heap w1); brk := brk w1;
            ktimers := <[id := {| kt_clock := clock; kt_sev := sev;
                                  kt_spec := zero_spec |}]> (ktimers w1);
            next_timer := id + 1;
            kcalls := kcalls w1; data_ptr := data_ptr w1 |})
    end.

Definition timer_settime (id : Z) (ts : itimerspec) : M (option Z) :=
  fun w =>
    let w1 := log (K_timer_settime id ts) w in
    match settime_errno k w id ts with
    | Some e => (Ok (Some e), w1)
    | None =>
        (Ok None,
         {| heap := heap w1; brk := brk w1;
            ktimers := alter (fun t => {| kt_clock := kt_clock t; kt_sev := kt_sev t;
                                          kt_spec := ts |}) id (ktimers w1);
            next_timer := next_timer w1;
            kcalls := kcalls w1; data_ptr := data_ptr w1 |})
    end.

Definition timer_gettime (id : Z) : M (Z + itimerspec) :=
  fun w => (Ok (gettime_result k w id), log (K_timer_gettime id) w).

(** [timer_delete(id)]; the C code ignores what it returns. *)
Definition timer_delete (id : Z) : M unit :=
  fun w =>
    let w1 := log (K_timer_delete id) w in
    (Ok tt,
     {| heap := heap w1; brk := brk w1;
        ktimers := delete id (ktimers w1); next_timer := next_timer w1;
        kcalls := kcalls w1; data_ptr := data_ptr w1 |}).

Definition mrb_timer_posix_free (data : Z) : M unit :=
  do d <- load_data data;
  do id <- load_timer (timer_ptr d);
  timer_delete id;;
  mrb_free (timer_ptr d);;
  match thread_param_ptr d with
  | Some prm => mrb_free prm
  | None => ret tt
  end;;
  mrb_free data.

End Kernel.

(** ** The methods of [Timer::POSIX] *)

(** [mrb_set_itimerspec]; [None] is the [-1] return with [errno = EINVAL].
    [ts] is the address of a local and never NULL.  The conversions to
    [time_t] and [long] keep the value: the seconds are a quotient of an
    [mrb_int], the nanoseconds are below 10^9 in magnitude. *)
Definition mrb_set_itimerspec (start start_nsec interval interval_nsec : Z)
  : option itimerspec :=
  if (start <? 0) || (interval <? 0) then None
  else Some {| it_value := {| tv_sec := start; tv_nsec := start_nsec |};
               it_interval := {| tv_sec := interval; tv_nsec := interval_nsec |} |}.

(** The arithmetic of [mrb_timer_posix_start] before any call: [/] and [%]
    of C truncate towards zero ([Z.quot], [Z.rem]); a missing [interval]
    keeps its initial value -1. *)
Definition start_itimerspec (start : Z) (interval_arg : option Z) : option itimerspec :=
  let interval := default (-1) interval_arg in
  let s_sec := Z.quot start 1000 in
  let s_nsec := Z.rem start 1000 * 1000000 in
  let '(i_sec, i_nsec) :=
    if interval >=? 0
    then (Z.quot interval 1000, Z.rem interval 1000 * 1000000)
    else (0, 0) in
  mrb_set_itimerspec s_sec s_nsec i_sec i_nsec.

(** The integral part of the float [m * 2 ^ e]: the float truncated
    towards zero. *)
Definition float_trunc (m e : Z) : Z :=
  if 0 <=? e then m * 2 ^ e else Z.quot m (2 ^ (- e)).

Section Methods.

Context (p : platform) (k : kernel).

(** [(pthread_t)mrb_float(v)], [pthread_t] being [unsigned long]: the
    integral part of the float when the type holds it.  For every other
    float the conversion is undefined in C, and the thread id is what the
    platform's conversion leaves. *)
Definition pthread_of_float (m e : Z) : Z :=
  let x := float_trunc m e in
  if (0 <=? x) && (x <? 2 ^ LONG_BIT p) then x
  else ulong_of_unfit p (Unfit_integral x).

Definition pthread_of_special (s : float_special) : Z :=
  ulong_of_unfit p (Unfit_special s).

(** The body of [if (mrb_float_p(thread_id_arg))], from [mrb_malloc] on. *)
Definition set_thread (sev : sigevent) (thread_id : Z) : M (sigevent * option Z) :=
  do param <- mrb_malloc
    (Blk_param {| prm_thread_id := thread_id;
                  prm_signo := if sigev_signo sev =? -1 then SIGALRM p
                               else sigev_signo sev |});
  ret ({| sigev_notify := SIGEV_THREAD; sigev_signo := sigev_signo sev;
          sival_ptr := Some param; sigev_notify_function := true |},
       Some param).

(** [sev] after [memset] and [sev.sigev_signo = -1]. *)
Definition sev_init : sigevent :=
  {| sigev_notify := NOTIFY_ZERO; sigev_signo := -1;
     sival_ptr := None; sigev_notify_function := false |}.

(** [sev] after the [nil] branch, and after the branch of a signal. *)
Definition sev_none : sigevent :=
  {| sigev_notify := SIGEV_NONE; sigev_signo := 0;
     sival_ptr := None; sigev_notify_function := false |}.

Definition sev_signal (sno : Z) : sigevent :=
  {| sigev_notify := SIGEV_SIGNAL; sigev_signo := sno;
     sival_ptr := None; sigev_notify_function := false |}.

(** The [signal] key of the options. *)
Definition parse_signal (h : gmap hkey mrb_value) : M sigevent :=
  if mrb_bool (has_key h MRB_TIMER_POSIX_KEY_SIGNO) then
    let signo := mrb_hash_get h MRB_TIMER_POSIX_KEY_SIGNO in
    if mrb_nil_p signo then ret sev_none
    else
      do sno <- lift (mrb_to_signo p signo);
      if sno <=? 0 then mrb_raise E_ARGUMENT_ERROR "Invalid value for signal"
      else ret (sev_signal sno)
  else ret sev_init.

(** The [clock_id] key. *)
Definition parse_clock (h : gmap hkey mrb_value) : Z :=
  match mrb_hash_get h MRB_TIMER_POSIX_KEY_CLOCK_ID with
  | mrb_fixnum_value n => CInt.to_int n
  | _ => CLOCK_REALTIME p
  end.

(** The [thread_id] key, under [#ifdef SIGEV_THREAD]. *)
Definition parse_thread (h : gmap hkey mrb_value) (sev : sigevent)
  : M (sigevent * option Z) :=
  if has_SIGEV_THREAD p then
    match mrb_hash_get h MRB_TIMER_POSIX_KEY_THREAD_ID with
    | mrb_float_value m e => set_thread sev (pthread_of_float m e)
    | mrb_float_special_value s => set_thread sev (pthread_of_special s)
    | _ => ret (sev, None)
    end
  else ret (sev, None).

Definition parse_options (options : mrb_value) : M (sigevent * Z * option Z) :=
  match options with
  | mrb_hash_value h =>
      do sev <- parse_signal h;
      let clockid := parse_clock h in
      do (sev, param) <- parse_thread h sev;
      ret (sev, clockid, param)
  | _ => ret (sev_init, CLOCK_REALTIME p, None)
  end.

(** [mrb_timer_posix_init] from [data = DATA_PTR(self)] on: the handle the
    object had is freed, a new one is allocated and filled. *)
Definition install (self : Z) (sev : sigevent) (clockid : Z) (param : option Z)
  : M mrb_value :=
  do data <- get_DATA_PTR self;
  match data with
  | Some data => mrb_timer_posix_free data
  | None => ret tt
  end;;
  set_DATA_PTR self None;;
  do data <- mrb_malloc (Blk_data None);
  do timer_ptr <- mrb_malloc (Blk_timer None);
  do signo <-
    (if sigev_signo sev <? 0 then
       do r <- timer_create k clockid None timer_ptr;
       match r with
       | Some e => mrb_sys_fail e "timer_create failed"
       | None => ret (SIGALRM p)
       end
     else
       do r <- timer_create k clockid (Some sev) timer_ptr;
       match r with
       | Some e => mrb_sys_fail e "timer_create failed"
       | None => ret (sigev_signo sev)
       end);
  store data (Blk_data (Some {| timer_ptr := timer_ptr; timer_signo := signo;
                                clockid := clockid; thread_param_ptr := param |}));;
  set_DATA_PTR self (Some data);;
  ret (mrb_obj_value self).

(** [mrb_timer_posix_init]; [options] is [nil] when the caller gave none. *)
Definition mrb_timer_posix_init (self : Z) (options : mrb_value) : M mrb_value :=
  do x <- parse_options options;
  install self (fst (fst x)) (snd (fst x)) (snd x).

(** [*(data->timer_ptr)] for [data = DATA_PTR(self)]. *)
Definition self_timer (self : Z) : M Z :=
  do data <- get_DATA_PTR self;
  match data with
  | Some data => do d <- load_data data; load_timer (timer_ptr d)
  | None => undefined
  end.

Definition self_data (self : Z) : M mrb_timer_posix_data :=
  do data <- get_DATA_PTR self;
  match data with
  | Some data => load_data data
  | None => undefined
  end.

(** [mrb_timer_posix_start], from the arguments [mrb_get_args] has stored. *)
Definition mrb_timer_posix_start (self : Z) (start : Z) (interval : option Z)
  : M mrb_value :=
  match start_itimerspec start interval with
  | None => mrb_raise E_ARGUMENT_ERROR "Values must be 0 or positive"
  | Some ts =>
      do id <- self_timer self;
      do r <- timer_settime k id ts;
      match r with
      | Some e => mrb_sys_fail e "timer_settime"
      | None => ret (mrb_obj_value self)
      end
  end.

Definition mrb_timer_posix_stop (self : Z) : M mrb_value :=
  match mrb_set_itimerspec 0 0 0 0 with
  | None => mrb_raise E_ARGUMENT_ERROR "Invalid value for stop"
  | Some ts =>
      do id <- self_timer self;
      do r <- timer_settime k id ts;
      match r with
      | Some e => mrb_sys_fail e "timer_settime"
      | None => ret (mrb_obj_value self)
      end
  end.

Definition mrb_timer_posix_status_raw (self : Z) : M mrb_value :=
  do id <- self_timer self;
  do r <- timer_gettime k id;
  match r with
  | inl e => mrb_sys_fail e "timer_gettime"
  | inr ts =>
      ret (mrb_hash_value
             (<[Str "interval.nsec" := mrb_fixnum_value (tv_nsec (it_interval ts))]>
             (<[Str "interval.sec" := mrb_fixnum_value (tv_sec (it_interval ts))]>
             (<[Str "value.nsec" := mrb_fixnum_value (tv_nsec (it_value ts))]>
             (<[Str "value.sec" := mrb_fixnum_value (tv_sec (it_value ts))]> ∅)))))
  end.

Definition mrb_timer_posix_is_running (self : Z) : M mrb_value :=
  do id <- self_timer self;
  do r <- timer_gettime k id;
  match r with
  | inl e => mrb_sys_fail e "timer_gettime"
  | inr ts =>
      ret (if negb (tv_sec (it_value ts) =? 0) || negb (tv_nsec (it_value ts) =? 0)
           then mrb_true_value else mrb_false_value)
  end.

Definition mrb_timer_posix_signo (self : Z) : M mrb_value :=
  do d <- self_data self;
  let signo := timer_signo d in
  if signo >? 0 then ret (mrb_fixnum_value (timer_signo d))
  else ret mrb_nil_value.

Definition mrb_timer_posix_clockid (self : Z) : M mrb_value :=
  do d <- self_data self;
  ret (mrb_fixnum_value (CInt.to_int (clockid d))).

End Methods.

(** The only method of the [__APPLE__] branch. *)
Definition mrb_timer_posix_dummy_start (self : Z) : M mrb_value :=
  mrb_raise E_NOTIMP_ERROR "Unsupported platform".

(** ** Registration and dispatch *)

Inductive cfunc :=
  | F_rtsignal_get
  | F_timer_posix_init
  | F_timer_posix_start
  | F_timer_posix_stop
  | F_timer_posix_status_raw
  | F_timer_posix_is_running
  | F_timer_posix_signo
  | F_timer_posix_clockid
  | F_timer_posix_dummy_start.

(** [mrb_mruby_timer_thread_gem_init]: the methods it defines, as
    (owner, name, function).  [apple] is [#ifdef __APPLE__], the branch
    for platforms without POSIX timers.  The clock constants the other
    branch exports are values of [<time.h>] and play no part here. *)
Definition mrb_mruby_timer_thread_gem_init (apple : bool)
  : list (string * string * cfunc) :=
  if apple then
    [("Timer::POSIX", "start", F_timer_posix_dummy_start)]
  else
    [("RTSignal", "get", F_rtsignal_get);
     ("Timer::POSIX", "initialize", F_timer_posix_init);
     ("Timer::POSIX", "start", F_timer_posix_start);
     ("Timer::POSIX", "stop", F_timer_posix_stop);
     ("Timer::POSIX", "__status_raw", F_timer_posix_status_raw);
     ("Timer::POSIX", "running?", F_timer_posix_is_running);
     ("Timer::POSIX", "signo", F_timer_posix_signo);
     ("Timer::POSIX", "clock_id", F_timer_posix_clockid)].

Fixpoint method_lookup (tbl : list (string * string * cfunc)) (owner name : string)
  : option cfunc :=
  match tbl with
  | [] => None
  | (o, n, f) :: rest =>
      if String.eqb o owner && String.eqb n name then Some f
      else method_lookup rest owner name
  end.

Section Dispatch.

Context (p : platform) (k : kernel).

(** A C function run on the arguments of a call.  [mrb_get_args] is the
    host's: arguments it does not take as they are (another number of
    them, something else than a Fixnum for [i]) make it convert or raise
    before the body runs; here it raises. *)
Definition run_cfunc (f : cfunc) (self : Z) (args : list mrb_value) : M mrb_value :=
  match f, args with
  | F_timer_posix_dummy_start, _ => mrb_timer_posix_dummy_start self
  | F_rtsignal_get, [mrb_fixnum_value idx] => lift (mrb_rtsignal_get p idx)
  | F_timer_posix_init, [] => mrb_timer_posix_init p k self mrb_nil_value
  | F_timer_posix_init, [options] => mrb_timer_posix_init p k self options
  | F_timer_posix_start, [mrb_fixnum_value start] =>
      mrb_timer_posix_start k self start None
  | F_timer_posix_start, [mrb_fixnum_value start; mrb_fixnum_value interval] =>
      mrb_timer_posix_start k self start (Some interval)
  | F_timer_posix_stop, [] => mrb_timer_posix_stop k self
  | F_timer_posix_status_raw, [] => mrb_timer_posix_status_raw k self
  | F_timer_posix_is_running, [] => mrb_timer_posix_is_running k self
  | F_timer_posix_signo, [] => mrb_timer_posix_signo self
  | F_timer_posix_clockid, [] => mrb_timer_posix_clockid self
  | _, _ => mrb_raise E_ARGUMENT_ERROR "mrb_get_args"
  end.

(** A method call on a [Timer::POSIX] object as the host resolves it: a
    method the gem defines runs its C function; [initialize] is otherwise
    [Object]'s, which does nothing; any other name is not a method. *)
Definition call (apple : bool) (name : string) (self : Z) (args : list mrb_value)
  : M mrb_value :=
  match method_lookup (mrb_mruby_timer_thread_gem_init apple) "Timer::POSIX" name with
  | Some f => run_cfunc f self args
  | None =>
      if String.eqb name "initialize" then ret mrb_nil_value
      else mrb_raise E_NOMETHOD_ERROR "undefined method"
  end.

End Dispatch.

(** ** A kernel to run examples against

    Clocks 0 to 3 and 7 to 9 can drive a timer; a timer is armed with
    non-negative seconds and nanoseconds below 10^9; it reports the
    setting it was last given. *)
Definition valid_timespec (t : timespec) : bool :=
  (0 <=? tv_sec t) && (0 <=? tv_nsec t) && (tv_nsec t <? 1000000000).

Definition test_kernel : kernel := {|
  create_errno := fun _ clock _ =>
    if ((0 <=? clock) && (clock <=? 3)) || ((7 <=? clock) && (clock <=? 9))
    then None else Some EINVAL;
  settime_errno := fun w id ts =>
    match ktimers w !! id with
    | Some _ =>
        if valid_timespec (it_value ts) && valid_timespec (it_interval ts)
        then None else Some EINVAL
    | None => Some EINVAL
    end;
  gettime_result := fun w id =>
    match ktimers w !! id with
    | Some t => inr (kt_spec t)
    | None => inl EINVAL
    end
|}.

(** Live resources of a world. *)
Definition live_blocks (w : world) : nat := size (heap w).
Definition live_timers (w : world) : nat := size (ktimers w).

(** ** Vocabulary of the statements *)

(** Every name [siglist] can hold, on any platform. *)
Definition signames : list string :=
  ["EXIT"; "HUP"; "INT"; "QUIT"; "ILL"; "TRAP"; "ABRT"; "IOT"; "EMT"; "FPE";
   "KILL"; "BUS"; "SEGV"; "SYS"; "PIPE"; "ALRM"; "TERM"; "URG"; "STOP";
   "TSTP"; "CONT"; "CHLD"; "CLD"; "TTIN"; "TTOU"; "IO"; "XCPU"; "XFSZ";
   "VTALRM"; "PROF"; "WINCH"; "USR1"; "USR2"; "LOST"; "MSG"; "PWR"; "POLL";
   "DANGER"; "MIGRATE"; "PRE"; "GRANT"; "RETRACT"; "SOUND"; "INFO"].

Definition is_signame (nm : string) : bool := existsb (String.eqb nm) signames.

(** A name as the table stores it: no NUL inside, no ["SIG"] in front. *)
Definition plain_name (nm : string) : bool :=
  String.eqb (CString.c_str nm) nm && negb (CString.starts_with "SIG" nm).

(** The name [mrb_to_signo] hands to [signm2signo] for a string: the C
    string in the buffer, without a leading ["SIG"]. *)
Definition lookup_name (buf : string) : string :=
  let s := CString.c_str buf in
  if CString.starts_with "SIG" s then CString.advance 3 s else s.

(** The sigevent [timer_create] is given: NULL while [sigev_signo] is -1. *)
Definition sev_arg (sev : sigevent) : option sigevent :=
  if sigev_signo sev <? 0 then None else Some sev.

(** The signal the handle records. *)
Definition recorded_signo (p : platform) (sev : sigevent) : Z :=
  if sigev_signo sev <? 0 then SIGALRM p else sigev_signo sev.

(** The world when [mrb_timer_posix_init] calls [timer_create] on an object
    without a handle: two fresh blocks, nothing in them yet. *)
Definition before_create (self : Z) (w : world) : world :=
  {| heap := <[brk w + 1 := Blk_timer None]> (<[brk w := Blk_data None]> (heap w));
     brk := brk w + 1 + 1;
     ktimers := ktimers w; next_timer := next_timer w;
     kcalls := kcalls w; data_ptr := delete self (data_ptr w) |}.

Definition is_float (v : mrb_value) : bool :=
  match v with
  | mrb_float_value _ _ | mrb_float_special_value _ => true
  | _ => false
  end.

Definition ms_timespec (ms : Z) : timespec :=
  {| tv_sec := ms / 1000; tv_nsec := (ms mod 1000) * 1000000 |}.

Definition zero_timespec : timespec := {| tv_sec := 0; tv_nsec := 0 |}.

(** A timer constructed without options, on Linux. *)
Definition constructed : world :=
  snd (mrb_timer_posix_init linux_x86_64 test_kernel 1 mrb_nil_value empty_world).

(** The entries of [siglist] under a plain [#ifdef], as (macro, name). *)
Definition guarded_entries : list (string * string) :=
  [("SIGHUP", "HUP"); ("SIGQUIT", "QUIT"); ("SIGILL", "ILL"); ("SIGTRAP", "TRAP");
   ("SIGABRT", "ABRT"); ("SIGIOT", "IOT"); ("SIGEMT", "EMT"); ("SIGFPE", "FPE");
   ("SIGKILL", "KILL"); ("SIGBUS", "BUS"); ("SIGSEGV", "SEGV"); ("SIGSYS", "SYS");
   ("SIGPIPE", "PIPE"); ("SIGTERM", "TERM"); ("SIGURG", "URG"); ("SIGSTOP", "STOP");
   ("SIGTSTP", "TSTP"); ("SIGCONT", "CONT"); ("SIGCHLD", "CHLD"); ("SIGTTIN", "TTIN");
   ("SIGTTOU", "TTOU"); ("SIGIO", "IO"); ("SIGXCPU", "XCPU"); ("SIGXFSZ", "XFSZ");
   ("SIGVTALRM", "VTALRM"); ("SIGPROF", "PROF"); ("SIGWINCH", "WINCH");
   ("SIGUSR1", "USR1"); ("SIGUSR2", "USR2"); ("SIGLOST", "LOST"); ("SIGMSG", "MSG");
   ("SIGPWR", "PWR"); ("SIGPOLL", "POLL"); ("SIGDANGER", "DANGER");
   ("SIGMIGRATE", "MIGRATE"); ("SIGPRE", "PRE"); ("SIGGRANT", "GRANT");
   ("SIGRETRACT", "RETRACT"); ("SIGSOUND", "SOUND"); ("SIGINFO", "INFO")].

(** An object whose [DATA_PTR] leads to a filled handle with timer [id]. *)
Definition has_handle (self a : Z) (d : mrb_timer_posix_data) (id : Z) (w : world) : Prop :=
  data_ptr w !! self = Some a
  /\ heap w !! a = Some (Blk_data (Some d))
  /\ heap w !! timer_ptr d = Some (Blk_timer (Some id)).

(** The hash [__status_raw] builds from a timer setting. *)
Definition status_hash (ts : itimerspec) : gmap hkey mrb_value :=
  <[Str "interval.nsec" := mrb_fixnum_value (tv_nsec (it_interval ts))]>
  (<[Str "interval.sec" := mrb_fixnum_value (tv_sec (it_interval ts))]>
  (<[Str "value.nsec" := mrb_fixnum_value (tv_nsec (it_value ts))]>
  (<[Str "value.sec" := mrb_fixnum_value (tv_sec (it_value ts))]> ∅))).

(** The handle of [constructed]. *)
Definition constructed_data : mrb_timer_posix_data :=
  {| timer_ptr := 2; timer_signo := 14; clockid := 0; thread_param_ptr := None |}.

(** [ms] back from a [timespec]. *)
Definition timespec_ms (t : timespec) : Z := tv_sec t * 1000 + tv_nsec t / 1000000.

(** What a method that is not [initialize] may do to the world: at most one
    kernel call; no block, no timer and no [DATA_PTR] comes or goes. *)
Definition keeps_handles (w w' : world) : Prop :=
  heap w' = heap w
  /\ brk w' = brk w
  /\ data_ptr w' = data_ptr w
  /\ dom (ktimers w') = dom (ktimers w)
  /\ next_timer w' = next_timer w
  /\ (kcalls w' = kcalls w \/ exists c, kcalls w' = c :: kcalls w).

(** [sev] after the [thread_id] branch, with the context at [param]. *)
Definition sev_thread (sev : sigevent) (param : Z) : sigevent :=
  {| sigev_notify := SIGEV_THREAD; sigev_signo := sigev_signo sev;
     sival_ptr := Some param; sigev_notify_function := true |}.

(** The float [m * 2 ^ e] has a value in [pthread_t]: its integral part
    is a number [unsigned long] holds.  Only then does C say what
    [(pthread_t)mrb_float(v)] is. *)
Definition fits_pthread (p : platform) (m e : Z) : Prop :=
  0 <= float_trunc m e < 2 ^ LONG_BIT p.

(** The context that branch fills in. *)
Definition thread_param (p : platform) (sev : sigevent) (m e : Z)
  : mrb_timer_posix_thread_param :=
  {| prm_signo := if sigev_signo sev =? -1 then SIGALRM p else sigev_signo sev;
     prm_thread_id := pthread_of_float p m e |}.

(** The handle [mrb_timer_posix_init] fills in at [brk w]. *)
Definition new_data (p : platform) (sev : sigevent) (clk : Z) (param : option Z)
    (w : world) : mrb_timer_posix_data :=
  {| timer_ptr := brk w + 1; timer_signo := recorded_signo p sev;
     clockid := clk; thread_param_ptr := param |}.

(** The world when [mrb_timer_posix_init] has succeeded on an object
    without a handle. *)
Definition after_create (p : platform) (self : Z) (sev : sigevent) (clk : Z)
    (param : option Z) (w : world) : world :=
  {| heap := <[brk w := Blk_data (Some (new_data p sev clk param w))]>
               (<[brk w + 1 := Blk_timer (Some (next_timer w))]>
                  (<[brk w + 1 := Blk_timer None]>
                     (<[brk w := Blk_data None]> (heap w))));
     brk := brk w + 1 + 1;
     ktimers := <[next_timer w := {| kt_clock := clk; kt_sev := sev_arg sev;
                                     kt_spec := zero_spec |}]> (ktimers w);
     next_timer := next_timer w + 1;
     kcalls := K_timer_create clk (sev_arg sev) :: kcalls w;
     data_ptr := <[self := brk w]> (delete self (data_ptr w)) |}.

(** Every block lies below [brk], every timer below [next_timer]: what
    [mrb_malloc] and [timer_create] hand out next is not in use. *)
Definition fresh_from (w : world) : Prop :=
  (forall a, brk w <= a -> heap w !! a = None)
  /\ (forall i, next_timer w <= i -> ktimers w !! i = None).

(** The context a handle points to, if any, is a live context block. *)
Definition params_live (d : mrb_timer_posix_data) (w : world) : Prop :=
  forall prm, thread_param_ptr d = Some prm -> exists q, heap w !! prm = Some (Blk_param q).

(** Options to run examples on: a thread id alone, and with a signal. *)
Definition thread_only : gmap hkey mrb_value :=
  {[MRB_TIMER_POSIX_KEY_THREAD_ID := mrb_float_value 5 0]}.

Definition thread_and_signal : gmap hkey mrb_value :=
  <[MRB_TIMER_POSIX_KEY_THREAD_ID := mrb_float_value 5 0]>
    {[MRB_TIMER_POSIX_KEY_SIGNO := mrb_str_value "USR1"]}.

(** Options with a clock no kernel timer runs on. *)
Definition bad_clock : mrb_value :=
  mrb_hash_value {[MRB_TIMER_POSIX_KEY_CLOCK_ID := mrb_fixnum_value 9999]}.

(** [mrb_timer_posix_thread_func], run by the kernel on expiry with
    [sv.sival_ptr]: the [pthread_kill(thread_id, signo)] it makes, as the
    pair of its arguments. *)
Definition mrb_timer_posix_thread_func (sv : option Z) (w : world) : outcome (Z * Z) :=
  match sv with
  | Some a =>
      match heap w !! a with
      | Some (Blk_param param) => Ok (prm_thread_id param, prm_signo param)
      | _ => Undefined
      end
  | None => Undefined
  end.

(** * Properties *)

(** ** C integers *)

Module CIntFacts.

Import CInt.

Lemma wrap_small w z : 0 < w -> - 2 ^ (w - 1) <= z < 2 ^ (w - 1) -> wrap w z = z.
Proof.
  intros Hw Hz. unfold wrap.
  assert (2 ^ w = 2 * 2 ^ (w - 1)) as ->.
  { replace w with (Z.succ (w - 1)) at 1 by lia. apply Z.pow_succ_r. lia. }
  rewrite Z.mod_small; lia.
Qed.

Lemma to_int_small z : in_int z -> to_int z = z.
Proof.
  unfold in_int, INT_MIN, INT_MAX, to_int, INT_BIT. intros H.
  apply wrap_small; [lia|]. change (32 - 1) with 31. lia.
Qed.

Lemma int_add_small a b : in_int (a + b) -> int_add a b = a + b.
Proof. apply to_int_small. Qed.

End CIntFacts.

(** * Properties of the signal directory *)

Section SignalFacts.

Context (p : platform).

Lemma ifdef_names macro signm :
  is_signame signm = true ->
  Forall (fun e => is_signame (fst e) = true) (ifdef p macro signm).
Proof.
  intros H. unfold ifdef. destruct (sigmacro p macro); repeat constructor; exact H.
Qed.

Lemma siglist_names : Forall (fun e => is_signame (fst e) = true) (siglist p).
Proof.
  unfold siglist.
  repeat first
    [ apply Forall_app_2
    | apply ifdef_names; reflexivity
    | apply Forall_nil_2
    | (apply Forall_cons_2; [reflexivity|])
    | destruct (sigmacro p "SIGCLD") ].
Qed.

Lemma siglist_lookup_In sigs nm signo :
  siglist_lookup sigs nm = Some signo -> In (nm, signo) sigs.
Proof.
  induction sigs as [|[signm n] rest IH]; simpl; [discriminate|].
  unfold CString.strcmp_eq. destruct (String.eqb_spec signm nm) as [->|Hne].
  - intros [= ->]. now left.
  - intros H. right. now apply IH.
Qed.


Lemma siglist_lookup_signame nm signo :
  siglist_lookup (siglist p) nm = Some signo -> is_signame nm = true.
Proof.
  intros H%siglist_lookup_In.
  pose proof siglist_names as Hall. rewrite Forall_forall in Hall.
  apply (Hall (nm, signo)). now apply list_elem_of_In.
Qed.


Lemma not_signame_lookup nm :
  is_signame nm = false -> siglist_lookup (siglist p) nm = None.
Proof.
  intros H. destruct (siglist_lookup (siglist p) nm) eqn:E; [|reflexivity].
  apply siglist_lookup_signame in E. congruence.
Qed.

(** No table name begins with ["RT"]. *)
Lemma rt_not_signame s : is_signame (String "R" (String "T" s)) = false.
Proof. reflexivity. Qed.

Lemma signames_plain : forallb plain_name signames = true.
Proof. reflexivity. Qed.

Lemma signame_plain nm : is_signame nm = true -> plain_name nm = true.
Proof.
  unfold is_signame. intros [x [Hin Heq]]%existsb_exists.
  apply String.eqb_eq in Heq. subst x.
  pose proof signames_plain as H. rewrite forallb_forall in H. now apply H.
Qed.

(** [EXIT] is the first entry on every platform. *)
Lemma signm2signo_EXIT : signm2signo p "EXIT" = 0.
Proof. reflexivity. Qed.

End SignalFacts.

Section ResolveFacts.

Context (p : platform).

Lemma mrb_to_signo_str buf :
  mrb_to_signo p (mrb_str_value buf) =
  let s := lookup_name buf in
  let sig := signm2signo p s in
  if (sig =? 0) && negb (CString.strcmp_eq s "EXIT")
  then Raise E_ARGUMENT_ERROR "unsupported signal"
  else Ok sig.
Proof. reflexivity. Qed.

Lemma mrb_to_signo_symbol name :
  mrb_to_signo p (mrb_symbol_value name) = mrb_to_signo p (mrb_str_value name).
Proof. reflexivity. Qed.

Lemma lookup_name_SIG nm :
  plain_name nm = true -> lookup_name ("SIG" ++ nm) = lookup_name nm.
Proof.
  unfold plain_name, lookup_name.
  intros [Hc Hs]%andb_true_iff. apply String.eqb_eq in Hc.
  apply negb_true_iff in Hs.
  change (CString.c_str ("SIG" ++ nm)) with ("SIG" ++ CString.c_str nm).
  rewrite Hc, Hs. reflexivity.
Qed.

Lemma lookup_name_plain nm : plain_name nm = true -> lookup_name nm = nm.
Proof.
  unfold plain_name, lookup_name.
  intros [Hc Hs]%andb_true_iff. apply String.eqb_eq in Hc.
  apply negb_true_iff in Hs. now rewrite Hc, Hs.
Qed.

Lemma RT0_starts_with_RT s :
  CString.strcmp_eq "RT0" s = true -> CString.starts_with "RT" s = true.
Proof.
  unfold CString.strcmp_eq. intros H%String.eqb_eq. subst s. reflexivity.
Qed.

(** Outside the table and the ["RT"] tokens, [signm2signo] gives 0. *)
Lemma signm2signo_unmatched nm :
  siglist_lookup (siglist p) nm = None ->
  CString.starts_with "RT" nm = false ->
  signm2signo p nm = 0.
Proof.
  intros Hl Hrt. unfold signm2signo. rewrite Hl.
  destruct (CString.strcmp_eq "RT0" nm) eqn:E.
  - apply RT0_starts_with_RT in E. congruence.
  - now rewrite Hrt.
Qed.


End ResolveFacts.

(** C6: for every name [N] of the signal table, resolving ["SIG" ++ N]
    gives what resolving [N] gives, and that is the number the table has
    for [N] (the leading ["SIG"] is dropped before the lookup). *)
Theorem sig_prefix_is_optional (p : platform) (N : string) (signo : Z) :
  siglist_lookup (siglist p) N = Some signo ->
  mrb_to_signo p (mrb_str_value ("SIG" ++ N)) = mrb_to_signo p (mrb_str_value N)
  /\ (signo <> 0 \/ N = "EXIT" -> mrb_to_signo p (mrb_str_value N) = Ok signo).
Proof.
  intros Hl.
  assert (Hp : plain_name N = true).
  { apply signame_plain. eapply siglist_lookup_signame. exact Hl. }
  rewrite !mrb_to_signo_str, lookup_name_SIG, lookup_name_plain by exact Hp.
  split; [reflexivity|]. cbv zeta.
  unfold signm2signo. rewrite Hl. intros [Hnz | ->].
  - apply Z.eqb_neq in Hnz. now rewrite Hnz.
  - simpl. now rewrite andb_false_r.
Qed.

Lemma sig_prefix_is_optional_witness :
  siglist_lookup (siglist linux_x86_64) "USR1" = Some 10
  /\ mrb_to_signo linux_x86_64 (mrb_str_value "SIGUSR1") = Ok 10
  /\ mrb_to_signo linux_x86_64 (mrb_str_value "USR1") = Ok 10.
Proof.
  assert (H : siglist_lookup (siglist linux_x86_64) "USR1" = Some 10) by reflexivity.
  destruct (sig_prefix_is_optional linux_x86_64 "USR1" 10 H) as [H1 H2].
  split; [exact H|]. split.
  - change (mrb_str_value "SIGUSR1") with (mrb_str_value ("SIG" ++ "USR1")).
    rewrite H1. apply H2. left. lia.
  - apply H2. left. lia.
Defined.



(** Where the conversion to [int] loses nothing, [RTSignal.get] has no lower
    bound on its index: a negative [int] index gives [SIGRTMIN + idx], a
    number below [SIGRTMIN], and raises nothing; an index is refused exactly
    when the sum is above [SIGRTMAX]. *)
Lemma rt_signal_has_no_lower_bound (p : platform) (idx : Z) :
  platform_ok p ->
  CInt.INT_MIN <= idx < 0 ->
  mrb_rtsignal_get p idx = Ok (mrb_fixnum_value (SIGRTMIN p + idx))
  /\ SIGRTMIN p + idx < SIGRTMIN p
  /\ forall j, CInt.in_int j -> CInt.in_int (SIGRTMIN p + j) ->
       (is_argument_error (mrb_rtsignal_get p j) = true <-> SIGRTMIN p + j > SIGRTMAX p).
Proof.
  intros Hp Hidx.
  destruct Hp as [_ Hmin Hrange _].
  assert (Hgen : forall j, CInt.in_int j -> CInt.in_int (SIGRTMIN p + j) ->
            mrb_rtsignal_get p j =
            if SIGRTMIN p + j >? SIGRTMAX p
            then Raise E_ARGUMENT_ERROR "RTSignal indx too large"
            else Ok (mrb_fixnum_value (SIGRTMIN p + j))).
  { intros j Hj Hsum. unfold mrb_rtsignal_get.
    rewrite (CIntFacts.to_int_small j Hj), (CIntFacts.int_add_small _ _ Hsum). reflexivity. }
  assert (Hi : CInt.in_int idx).
  { unfold CInt.in_int, CInt.INT_MAX in *. lia. }
  assert (Hs : CInt.in_int (SIGRTMIN p + idx)).
  { unfold CInt.in_int, CInt.INT_MIN, CInt.INT_MAX in *. lia. }
  split; [|split].
  - rewrite (Hgen idx Hi Hs).
    destruct (Z.gtb_spec (SIGRTMIN p + idx) (SIGRTMAX p)); [lia|reflexivity].
  - lia.
  - intros j Hj Hsum. rewrite (Hgen j Hj Hsum).
    destruct (Z.gtb_spec (SIGRTMIN p + j) (SIGRTMAX p)); simpl; split;
      intros; try lia; try discriminate; reflexivity.
Qed.

Lemma linux_x86_64_ok : platform_ok linux_x86_64.
Proof. split; vm_compute; intuition discriminate. Qed.

Lemma rt_signal_has_no_lower_bound_witness :
  mrb_rtsignal_get linux_x86_64 (-5) = Ok (mrb_fixnum_value 29).
Proof.
  apply (rt_signal_has_no_lower_bound linux_x86_64 (-5) linux_x86_64_ok).
  vm_compute. intuition discriminate.
Defined.

(** C10, at the indices [31 - 2^32] and [5 - 2^32] of a 64-bit [mrb_int]:
    both are negative and [SIGRTMIN + idx] is far below [SIGRTMAX], yet
    [RTSignal.get] refuses the first as too large and answers the second
    with [SIGRTMIN + 5], a number inside the real-time range: the
    conversion to [int] has dropped the high bits before the sum is
    formed. *)
Theorem rt_negative_index_truncated_before_range_check :
  SIGRTMIN linux_x86_64 + -4294967265 <= SIGRTMAX linux_x86_64
  /\ mrb_rtsignal_get linux_x86_64 (-4294967265)
     = Raise E_ARGUMENT_ERROR "RTSignal indx too large"
  /\ SIGRTMIN linux_x86_64 + -4294967291 = -4294967257
  /\ mrb_rtsignal_get linux_x86_64 (-4294967291) = Ok (mrb_fixnum_value 39)
  /\ SIGRTMIN linux_x86_64 <= 39 <= SIGRTMAX linux_x86_64.
Proof.
  split; [vm_compute; discriminate|].
  split; [vm_compute; reflexivity|].
  split; [reflexivity|].
  split; [vm_compute; reflexivity|].
  vm_compute. intuition discriminate.
Qed.

(** C5, at the index [2^32 + 1]: [SIGRTMIN + i] is far above [SIGRTMAX],
    yet the token ["RT4294967297"] resolves, to [SIGRTMIN + 1], and so does
    [RTSignal.get] on a 64-bit [mrb_int]: the conversion to [int] has
    dropped the high bits before the range test. *)
Theorem rt_index_truncated_before_range_check :
  rt_token 4294967297 = "RT4294967297"
  /\ SIGRTMIN linux_x86_64 + 4294967297 > SIGRTMAX linux_x86_64
  /\ mrb_to_signo linux_x86_64 (mrb_str_value (rt_token 4294967297)) = Ok 35
  /\ mrb_rtsignal_get linux_x86_64 4294967297 = Ok (mrb_fixnum_value 35).
Proof. repeat split. Qed.

(** The same at [INT_MAX], an index every [mrb_int] holds: here it is the
    sum [SIGRTMIN + i] that leaves [int]. *)
Example rt_index_sum_leaves_int :
  mrb_to_signo linux_x86_64 (mrb_str_value (rt_token 2147483647)) = Ok (-2147483615)
  /\ mrb_rtsignal_get linux_x86_64 2147483647 = Ok (mrb_fixnum_value (-2147483615)).
Proof. repeat split. Qed.

(** * Properties of the timer handle *)

Section InstallFacts.

Context (p : platform) (k : kernel).

Lemma install_fresh_failure self sev clk param w e :
  data_ptr w !! self = None ->
  create_errno k (before_create self w) clk (sev_arg sev) = Some e ->
  install p k self sev clk param w
  = (Raise (E_SYSTEMCALL_ERROR e) "timer_create failed",
     log (K_timer_create clk (sev_arg sev)) (before_create self w)).
Proof.
  intros Hself Hk.
  unfold install, bind, get_DATA_PTR, set_DATA_PTR, mrb_malloc, ret. cbn.
  rewrite Hself. cbn.
  unfold sev_arg in *.
  destruct (sigev_signo sev <? 0); unfold timer_create, bind; cbn;
    fold (before_create self w); rewrite Hk; reflexivity.
Qed.

Lemma install_fresh_success self sev clk param w :
  data_ptr w !! self = None ->
  create_errno k (before_create self w) clk (sev_arg sev) = None ->
  exists w',
    install p k self sev clk param w = (Ok (mrb_obj_value self), w')
    /\ data_ptr w' !! self = Some (brk w)
    /\ heap w' !! brk w
       = Some (Blk_data (Some {| timer_ptr := brk w + 1;
                                 timer_signo := recorded_signo p sev;
                                 clockid := clk;
                                 thread_param_ptr := param |}))
    /\ heap w' !! (brk w + 1) = Some (Blk_timer (Some (next_timer w)))
    /\ ktimers w' !! next_timer w
       = Some {| kt_clock := clk; kt_sev := sev_arg sev; kt_spec := zero_spec |}
    /\ kcalls w' = K_timer_create clk (sev_arg sev) :: kcalls w.
Proof.
  intros Hself Hk.
  unfold install, bind, get_DATA_PTR, set_DATA_PTR, mrb_malloc, ret. cbn.
  rewrite Hself. cbn.
  unfold sev_arg, recorded_signo in *.
  destruct (sigev_signo sev <? 0); unfold timer_create, bind; cbn;
    fold (before_create self w); rewrite Hk; cbn;
    unfold store; cbn.
  all: rewrite lookup_insert_ne by lia.
  all: rewrite lookup_insert_ne by lia.
  all: rewrite lookup_insert_eq; cbn.
  all: eexists; split; [reflexivity|]; cbn.
  all: rewrite !lookup_insert_eq.
  all: rewrite lookup_insert_ne by lia.
  all: rewrite lookup_insert_eq.
  all: repeat split; reflexivity.
Qed.

End InstallFacts.

Section ParseFacts.

Context (p : platform).

Lemma parse_signal_absent h w :
  h !! MRB_TIMER_POSIX_KEY_SIGNO = None ->
  parse_signal p h w = (Ok sev_init, w).
Proof. intros H. unfold parse_signal, has_key. now rewrite H. Qed.

Lemma parse_signal_nil h w :
  h !! MRB_TIMER_POSIX_KEY_SIGNO = Some mrb_nil_value ->
  parse_signal p h w = (Ok sev_none, w).
Proof. intros H. unfold parse_signal, has_key, mrb_hash_get. now rewrite H. Qed.

Lemma parse_signal_resolved h v n w :
  h !! MRB_TIMER_POSIX_KEY_SIGNO = Some v ->
  v <> mrb_nil_value ->
  mrb_to_signo p v = Ok n ->
  0 < n ->
  parse_signal p h w = (Ok (sev_signal n), w).
Proof.
  intros H Hv Hn Hpos. unfold parse_signal, has_key, mrb_hash_get. rewrite H.
  assert (mrb_nil_p v = false) as Hnil by (destruct v; [congruence|reflexivity..]).
  cbn -[mrb_to_signo mrb_nil_p]. rewrite Hnil. unfold bind, lift. rewrite Hn.
  destruct (Z.leb_spec n 0); [lia|reflexivity].
Qed.

(** [parse_thread] never raises and leaves [sigev_signo] and every
    [DATA_PTR] as they are. *)
Lemma parse_thread_total h sev w :
  exists sev' prm w',
    parse_thread p h sev w = (Ok (sev', prm), w')
    /\ sigev_signo sev' = sigev_signo sev
    /\ data_ptr w' = data_ptr w.
Proof.
  unfold parse_thread. destruct (has_SIGEV_THREAD p).
  - destruct (mrb_hash_get h MRB_TIMER_POSIX_KEY_THREAD_ID);
      try (exists sev, None, w; repeat split; reflexivity);
      eexists _, _, _; unfold set_thread, bind, mrb_malloc, ret; cbn; repeat split.
  - exists sev, None, w. repeat split; reflexivity.
Qed.

(** A [thread_id] that is not a float changes nothing. *)
Lemma parse_thread_not_float h sev w :
  is_float (mrb_hash_get h MRB_TIMER_POSIX_KEY_THREAD_ID) = false ->
  parse_thread p h sev w = (Ok (sev, None), w).
Proof.
  intros Hv. unfold parse_thread. destruct (has_SIGEV_THREAD p); [|reflexivity].
  destruct (mrb_hash_get h MRB_TIMER_POSIX_KEY_THREAD_ID) eqn:E;
    try reflexivity; discriminate Hv.
Qed.

Lemma parse_options_signo h sev w :
  parse_signal p h w = (Ok sev, w) ->
  exists sev' prm w',
    parse_options p (mrb_hash_value h) w = (Ok (sev', parse_clock p h, prm), w')
    /\ sigev_signo sev' = sigev_signo sev
    /\ data_ptr w' = data_ptr w.
Proof.
  intros Hs. unfold parse_options, bind. rewrite Hs.
  destruct (parse_thread_total h sev w) as (sev' & prm & w' & Ht & Hsig & Hd).
  rewrite Ht. cbn. exists sev', prm, w'. repeat split; assumption.
Qed.

End ParseFacts.

Lemma signo_of_handle self w a d :
  data_ptr w !! self = Some a ->
  heap w !! a = Some (Blk_data (Some d)) ->
  mrb_timer_posix_signo self w
  = (Ok (if timer_signo d >? 0 then mrb_fixnum_value (timer_signo d)
         else mrb_nil_value), w).
Proof.
  intros Hs Ha.
  unfold mrb_timer_posix_signo, self_data, bind, get_DATA_PTR, load_data. cbn.
  rewrite Hs. cbn. rewrite Ha. destruct (timer_signo d >? 0); reflexivity.
Qed.

Section ConstructFacts.

Context (p : platform) (k : kernel).

(** Construction on an object without a handle, for options whose
    [signal] parses. *)
Lemma construct_records_signo self h sev w :
  data_ptr w !! self = None ->
  (forall w0 s, create_errno k w0 (parse_clock p h) s = None) ->
  parse_signal p h w = (Ok sev, w) ->
  exists w',
    mrb_timer_posix_init p k self (mrb_hash_value h) w = (Ok (mrb_obj_value self), w')
    /\ mrb_timer_posix_signo self w'
       = (Ok (if recorded_signo p sev >? 0
              then mrb_fixnum_value (recorded_signo p sev)
              else mrb_nil_value), w').
Proof.
  intros Hself Hk Hs.
  destruct (parse_options_signo p h sev w Hs) as (sev' & prm & w1 & Hp & Hsig & Hd).
  unfold mrb_timer_posix_init, bind. rewrite Hp. cbn.
  destruct (install_fresh_success p k self sev' (parse_clock p h) prm w1)
    as (w' & Hi & Hdp & Hheap & _); [congruence|apply Hk|].
  exists w'. split; [exact Hi|].
  rewrite (signo_of_handle self w' _ _ Hdp Hheap). cbn.
  unfold recorded_signo. now rewrite Hsig.
Qed.

End ConstructFacts.

(** C8: [signo] gives the signal resolved at construction, and [nil]
    exactly when the options asked for no notification ([signal: nil]):
    with [signal: nil] it is [nil]; with [signal: v], where [v] resolves to
    [n], it is [n] (so for [signal: "USR1"] the number ["USR1"] resolves
    to); without [signal] it is [SIGALRM]. *)
Theorem signo_is_signal_resolved_at_construction
    (p : platform) (k : kernel) (self : Z) (h : gmap hkey mrb_value) (w : world) :
  platform_ok p ->
  data_ptr w !! self = None ->
  (forall w0 s, create_errno k w0 (parse_clock p h) s = None) ->
  (h !! MRB_TIMER_POSIX_KEY_SIGNO = Some mrb_nil_value ->
   exists w',
     mrb_timer_posix_init p k self (mrb_hash_value h) w = (Ok (mrb_obj_value self), w')
     /\ mrb_timer_posix_signo self w' = (Ok mrb_nil_value, w'))
  /\ (forall v n,
        h !! MRB_TIMER_POSIX_KEY_SIGNO = Some v ->
        v <> mrb_nil_value ->
        mrb_to_signo p v = Ok n ->
        0 < n ->
        exists w',
          mrb_timer_posix_init p k self (mrb_hash_value h) w
          = (Ok (mrb_obj_value self), w')
          /\ mrb_timer_posix_signo self w' = (Ok (mrb_fixnum_value n), w'))
  /\ (h !! MRB_TIMER_POSIX_KEY_SIGNO = None ->
      exists w',
        mrb_timer_posix_init p k self (mrb_hash_value h) w
        = (Ok (mrb_obj_value self), w')
        /\ mrb_timer_posix_signo self w' = (Ok (mrb_fixnum_value (SIGALRM p)), w')).
Proof.
  intros Hp Hself Hk. split; [|split].
  - intros Hnil.
    destruct (construct_records_signo p k self h sev_none w Hself Hk) as (w' & Hi & Hs).
    { now apply parse_signal_nil. }
    exists w'. split; [exact Hi|]. exact Hs.
  - intros v n Hv Hnn Hn Hpos.
    destruct (construct_records_signo p k self h (sev_signal n) w Hself Hk)
      as (w' & Hi & Hs).
    { now apply parse_signal_resolved with v. }
    exists w'. split; [exact Hi|]. rewrite Hs. unfold recorded_signo. cbn.
    destruct (Z.ltb_spec n 0); [lia|].
    destruct (Z.gtb_spec n 0); [reflexivity|lia].
  - intros Hnone.
    destruct (construct_records_signo p k self h sev_init w Hself Hk) as (w' & Hi & Hs).
    { now apply parse_signal_absent. }
    exists w'. split; [exact Hi|]. rewrite Hs. unfold recorded_signo. cbn.
    destruct Hp as [Halrm _ _ _].
    destruct (Z.gtb_spec (SIGALRM p) 0); [reflexivity|lia].
Qed.

Lemma signo_is_signal_resolved_at_construction_witness :
  exists w',
    mrb_timer_posix_init linux_x86_64 test_kernel 1
      (mrb_hash_value {[MRB_TIMER_POSIX_KEY_SIGNO := mrb_str_value "USR1"]}) empty_world
    = (Ok (mrb_obj_value 1), w')
    /\ mrb_timer_posix_signo 1 w' = (Ok (mrb_fixnum_value 10), w').
Proof.
  refine (proj1 (proj2 (signo_is_signal_resolved_at_construction
            linux_x86_64 test_kernel 1
            {[MRB_TIMER_POSIX_KEY_SIGNO := mrb_str_value "USR1"]} empty_world
            linux_x86_64_ok _ _)) (mrb_str_value "USR1") 10 _ _ _ _).
  - reflexivity.
  - intros w0 s. reflexivity.
  - vm_compute. reflexivity.
  - discriminate.
  - reflexivity.
  - lia.
Defined.

Section ThreadFacts.

Context (p : platform).




End ThreadFacts.



(** What a float [thread_id] does, for contrast. *)
Example thread_id_float_selects_thread_delivery :
  fst (parse_options linux_x86_64
         (mrb_hash_value {[MRB_TIMER_POSIX_KEY_THREAD_ID := mrb_float_value 7 0]})
         empty_world)
  = Ok ({| sigev_notify := SIGEV_THREAD; sigev_signo := -1;
           sival_ptr := Some 1; sigev_notify_function := true |}, 0, Some 1).
Proof. vm_compute. reflexivity. Qed.

(** * Properties of arming *)

(** The fields [mrb_timer_posix_start] computes stay inside a 32-bit
    [mrb_int], [time_t] and [long]: no step of its arithmetic wraps. *)
Lemma start_fields_in_range (ms : Z) :
  CInt.in_int ms ->
  CInt.in_int (Z.quot ms 1000) /\ -1000000000 < Z.rem ms 1000 * 1000000 < 1000000000.
Proof.
  unfold CInt.in_int, CInt.INT_MIN, CInt.INT_MAX. intros H.
  Z.quot_rem_to_equations. lia.
Qed.

Lemma start_itimerspec_nonneg (start interval : Z) :
  0 <= start -> 0 <= interval ->
  start_itimerspec start (Some interval)
  = Some {| it_value := ms_timespec start; it_interval := ms_timespec interval |}.
Proof.
  intros Hs Hi. unfold start_itimerspec, ms_timespec. cbn [default from_option id].
  destruct (Z.geb_spec interval 0); [|lia].
  unfold mrb_set_itimerspec.
  rewrite !Z.quot_div_nonneg, !Z.rem_mod_nonneg by lia.
  destruct (Z.ltb_spec (start / 1000) 0); [Z.div_mod_to_equations; lia|].
  destruct (Z.ltb_spec (interval / 1000) 0); [Z.div_mod_to_equations; lia|].
  reflexivity.
Qed.

Lemma start_itimerspec_one_shot (start : Z) :
  0 <= start ->
  start_itimerspec start None
  = Some {| it_value := ms_timespec start; it_interval := zero_timespec |}.
Proof.
  intros Hs. unfold start_itimerspec, ms_timespec. cbn.
  unfold mrb_set_itimerspec.
  rewrite !Z.quot_div_nonneg, !Z.rem_mod_nonneg by lia.
  destruct (Z.ltb_spec (start / 1000) 0); [Z.div_mod_to_equations; lia|].
  reflexivity.
Qed.

(** A negative [interval] is the missing one. *)
Lemma start_itimerspec_negative_interval (start i : Z) :
  i < 0 -> start_itimerspec start (Some i) = start_itimerspec start None.
Proof.
  intros Hi. unfold start_itimerspec. cbn [default from_option id].
  destruct (Z.geb_spec i 0); [lia|]. reflexivity.
Qed.

(** The validation fails exactly from one whole negative second on. *)
Lemma start_itimerspec_None (start : Z) (interval : option Z) :
  start_itimerspec start interval = None <-> start <= -1000.
Proof.
  unfold start_itimerspec, mrb_set_itimerspec.
  destruct (default (-1) interval >=? 0) eqn:E.
  - apply Z.geb_le in E.
    destruct (Z.ltb_spec (Z.quot start 1000) 0) as [H|H]; cbn.
    + split; [intros _|reflexivity]. Z.quot_rem_to_equations. lia.
    + destruct (Z.ltb_spec (Z.quot (default (-1) interval) 1000) 0) as [H'|H'].
      * exfalso. Z.quot_rem_to_equations. lia.
      * split; [discriminate|]. intros. exfalso. Z.quot_rem_to_equations. lia.
  - destruct (Z.ltb_spec (Z.quot start 1000) 0) as [H|H]; cbn.
    + split; [intros _|reflexivity]. Z.quot_rem_to_equations. lia.
    + split; [discriminate|]. intros. exfalso. Z.quot_rem_to_equations. lia.
Qed.

Section StartFacts.

Context (k : kernel).

Lemma start_calls_settime self start interval ts id w :
  start_itimerspec start interval = Some ts ->
  self_timer self w = (Ok id, w) ->
  kcalls (snd (mrb_timer_posix_start k self start interval w))
  = K_timer_settime id ts :: kcalls w.
Proof.
  intros Hts Hid. unfold mrb_timer_posix_start. rewrite Hts.
  unfold bind. rewrite Hid. unfold timer_settime.
  destruct (settime_errno k w id ts); reflexivity.
Qed.

End StartFacts.

(** C4: for [start_ms >= 0] and [interval_ms >= 0] each value is split into
    [ms / 1000] seconds and [(ms mod 1000) * 1000000] nanoseconds, and that
    is what [timer_settime] is called with; without [interval_ms] the
    interval is zero; 1500 and 250 give (1 s, 500000000 ns) and
    (0 s, 250000000 ns). *)
Theorem arm_splits_milliseconds
    (k : kernel) (self id start : Z) (w : world) :
  0 <= start ->
  self_timer self w = (Ok id, w) ->
  (forall interval, 0 <= interval ->
     let ts := {| it_value := ms_timespec start; it_interval := ms_timespec interval |} in
     start_itimerspec start (Some interval) = Some ts
     /\ kcalls (snd (mrb_timer_posix_start k self start (Some interval) w))
        = K_timer_settime id ts :: kcalls w)
  /\ (let ts := {| it_value := ms_timespec start; it_interval := zero_timespec |} in
      start_itimerspec start None = Some ts
      /\ kcalls (snd (mrb_timer_posix_start k self start None w))
         = K_timer_settime id ts :: kcalls w)
  /\ start_itimerspec 1500 (Some 250)
     = Some {| it_value := {| tv_sec := 1; tv_nsec := 500000000 |};
               it_interval := {| tv_sec := 0; tv_nsec := 250000000 |} |}.
Proof.
  intros Hs Hid. split; [|split].
  - intros interval Hi ts.
    pose proof (start_itimerspec_nonneg start interval Hs Hi) as Hts.
    split; [exact Hts|]. now apply start_calls_settime.
  - intros ts. pose proof (start_itimerspec_one_shot start Hs) as Hts.
    split; [exact Hts|]. now apply start_calls_settime.
  - reflexivity.
Qed.

Lemma arm_splits_milliseconds_witness :
  kcalls (snd (mrb_timer_posix_start test_kernel 1 1500 (Some 250) constructed))
  = K_timer_settime 1
      {| it_value := {| tv_sec := 1; tv_nsec := 500000000 |};
         it_interval := {| tv_sec := 0; tv_nsec := 250000000 |} |}
    :: kcalls constructed.
Proof.
  refine (proj2 (proj1 (arm_splits_milliseconds test_kernel 1 1 1500 constructed _ _)
                   250 _)).
  - lia.
  - vm_compute. reflexivity.
  - lia.
Defined.

(** C1, as the code has it: a start of -1000 ms or less is refused with the
    argument error before any kernel call, whatever the interval; a
    negative interval is not refused, it is the missing interval. *)
Theorem arm_refuses_whole_negative_seconds (k : kernel) (self : Z) (w : world) :
  (forall start interval,
     start <= -1000 ->
     mrb_timer_posix_start k self start interval w
     = (Raise E_ARGUMENT_ERROR "Values must be 0 or positive", w))
  /\ (forall start i,
        i < 0 ->
        mrb_timer_posix_start k self start (Some i) w
        = mrb_timer_posix_start k self start None w).
Proof.
  split.
  - intros start interval Hs. unfold mrb_timer_posix_start.
    apply (start_itimerspec_None start interval) in Hs. now rewrite Hs.
  - intros start i Hi. unfold mrb_timer_posix_start.
    now rewrite start_itimerspec_negative_interval.
Qed.

Lemma arm_refuses_whole_negative_seconds_witness :
  mrb_timer_posix_start test_kernel 1 (-1000) (Some 0) constructed
  = (Raise E_ARGUMENT_ERROR "Values must be 0 or positive", constructed)
  /\ mrb_timer_posix_start test_kernel 1 50 (Some (-1)) constructed
     = mrb_timer_posix_start test_kernel 1 50 None constructed.
Proof.
  destruct (arm_refuses_whole_negative_seconds test_kernel 1 constructed) as [H1 H2].
  split.
  - apply H1. lia.
  - apply H2. lia.
Defined.

(** C1 fails at both of its examples: with a start of -1 ms the validation
    passes and [timer_settime] is called (with -1000000 ns, which the kernel
    refuses: a system error); with an interval of -1 ms arming succeeds. *)
Lemma negative_milliseconds_reach_the_kernel :
  fst (mrb_timer_posix_start test_kernel 1 (-1) (Some 0) constructed)
  = Raise (E_SYSTEMCALL_ERROR EINVAL) "timer_settime"
  /\ kcalls (snd (mrb_timer_posix_start test_kernel 1 (-1) (Some 0) constructed))
     = K_timer_settime 1
         {| it_value := {| tv_sec := 0; tv_nsec := -1000000 |};
            it_interval := {| tv_sec := 0; tv_nsec := 0 |} |}
       :: kcalls constructed
  /\ fst (mrb_timer_posix_start test_kernel 1 0 (Some (-1)) constructed)
     = Ok (mrb_obj_value 1)
  /\ kcalls (snd (mrb_timer_posix_start test_kernel 1 0 (Some (-1)) constructed))
     = K_timer_settime 1 zero_spec :: kcalls constructed.
Proof. vm_compute. repeat split. Qed.

(** * Resources of construction *)

Section ResourceFacts.

Context (p : platform) (k : kernel).

(** When [timer_create] fails on an object without a handle, the two
    blocks allocated just before stay allocated and belong to no object;
    a context allocated for [thread_id] stays as well. *)
Lemma install_failure_leaves_blocks self sev clk param w e :
  data_ptr w !! self = None ->
  create_errno k (before_create self w) clk (sev_arg sev) = Some e ->
  exists w',
    install p k self sev clk param w
    = (Raise (E_SYSTEMCALL_ERROR e) "timer_create failed", w')
    /\ heap w' !! brk w = Some (Blk_data None)
    /\ heap w' !! (brk w + 1) = Some (Blk_timer None)
    /\ (forall a, a <> brk w -> a <> brk w + 1 -> heap w' !! a = heap w !! a)
    /\ data_ptr w' !! self = None
    /\ ktimers w' = ktimers w.
Proof.
  intros Hself Hk. eexists. split.
  - apply install_fresh_failure; eassumption.
  - cbn. rewrite lookup_insert_ne, !lookup_insert_eq by lia.
    rewrite lookup_delete_eq. repeat split.
    intros a H1 H2. now rewrite !lookup_insert_ne by congruence.
Qed.

(** [mrb_timer_posix_free] on a handle that is all there. *)
Lemma free_releases data d id w :
  heap w !! data = Some (Blk_data (Some d)) ->
  heap w !! timer_ptr d = Some (Blk_timer (Some id)) ->
  (forall prm, thread_param_ptr d = Some prm ->
     exists q, heap w !! prm = Some (Blk_param q)) ->
  exists w',
    mrb_timer_posix_free data w = (Ok tt, w')
    /\ heap w' = delete data
                   (match thread_param_ptr d with
                    | Some prm => delete prm (delete (timer_ptr d) (heap w))
                    | None => delete (timer_ptr d) (heap w)
                    end)
    /\ ktimers w' = delete id (ktimers w)
    /\ kcalls w' = K_timer_delete id :: kcalls w
    /\ brk w' = brk w /\ next_timer w' = next_timer w
    /\ data_ptr w' = data_ptr w.
Proof.
  intros Hd Ht Hprm.
  assert (Hne : timer_ptr d <> data) by (intros E; rewrite E in Ht; congruence).
  unfold mrb_timer_posix_free, bind, load_data, load_timer, timer_delete, mrb_free, ret.
  rewrite Hd, Ht. cbn. rewrite Ht. cbn.
  destruct (thread_param_ptr d) as [prm|] eqn:E.
  - destruct (Hprm prm eq_refl) as [q Hb].
    assert (prm <> data) by (intros E'; rewrite E' in Hb; congruence).
    assert (prm <> timer_ptr d) by (intros E'; rewrite E' in Hb; congruence).
    cbn. rewrite lookup_delete_ne, Hb by congruence. cbn.
    rewrite !lookup_delete_ne, Hd by congruence.
    eexists. repeat split.
  - cbn. rewrite lookup_delete_ne, Hd by congruence.
    eexists. repeat split.
Qed.

(** Re-construction of an object that has a handle: the handle is
    released, then everything goes as for an object without one. *)
Lemma install_releases_first self sev clk param data w w1 :
  data_ptr w !! self = Some data ->
  mrb_timer_posix_free data w = (Ok tt, w1) ->
  install p k self sev clk param w
  = install p k self sev clk param
      {| heap := heap w1; brk := brk w1; ktimers := ktimers w1;
         next_timer := next_timer w1; kcalls := kcalls w1;
         data_ptr := delete self (data_ptr w1) |}.
Proof.
  intros Hself Hfree.
  unfold install, bind, get_DATA_PTR, set_DATA_PTR, ret. cbn.
  rewrite Hself, Hfree, lookup_delete_eq. cbn.
  rewrite delete_delete_eq. reflexivity.
Qed.

(** After a re-construction the kernel has deleted the old timer before it
    created the new one, and the old blocks are free. *)
Lemma reconstruction_releases self sev clk param data d id w :
  data_ptr w !! self = Some data ->
  heap w !! data = Some (Blk_data (Some d)) ->
  heap w !! timer_ptr d = Some (Blk_timer (Some id)) ->
  (forall prm, thread_param_ptr d = Some prm ->
     exists q, heap w !! prm = Some (Blk_param q)) ->
  heap w !! brk w = None -> heap w !! (brk w + 1) = None ->
  id <> next_timer w ->
  (forall w0 s, create_errno k w0 clk s = None) ->
  exists w',
    install p k self sev clk param w = (Ok (mrb_obj_value self), w')
    /\ kcalls w' = K_timer_create clk (sev_arg sev) :: K_timer_delete id :: kcalls w
    /\ ktimers w' !! id = None
    /\ heap w' !! data = None
    /\ heap w' !! timer_ptr d = None
    /\ (forall prm, thread_param_ptr d = Some prm -> heap w' !! prm = None).
Proof.
  intros Hself Hd Ht Hprm Hb0 Hb1 Hid Hk.
  destruct (free_releases data d id w Hd Ht Hprm)
    as (w1 & Hfree & Hheap & Hkt & Hkc & Hbrk & Hnt & Hdp).
  rewrite (install_releases_first self sev clk param data w w1 Hself Hfree).
  set (w2 := {| heap := heap w1; brk := brk w1; ktimers := ktimers w1;
                next_timer := next_timer w1; kcalls := kcalls w1;
                data_ptr := delete self (data_ptr w1) |}).
  assert (Hfresh : data_ptr w2 !! self = None) by apply lookup_delete_eq.
  assert (Hnb : data <> brk w /\ timer_ptr d <> brk w
                /\ data <> brk w + 1 /\ timer_ptr d <> brk w + 1).
  { repeat split; intros E; rewrite E in *; congruence. }
  destruct Hnb as (N1 & N2 & N3 & N4).
  unfold install, bind, get_DATA_PTR, set_DATA_PTR, mrb_malloc, ret. cbn.
  rewrite lookup_delete_eq. cbn.
  assert (Hc : forall s, create_errno k
             {| heap := <[brk w1 + 1 := Blk_timer None]> (<[brk w1 := Blk_data None]> (heap w1));
                brk := brk w1 + 1 + 1; ktimers := ktimers w1;
                next_timer := next_timer w1; kcalls := kcalls w1;
                data_ptr := delete self (delete self (data_ptr w1)) |} clk s = None)
    by (intros s; apply Hk).
  unfold sev_arg.
  destruct (sigev_signo sev <? 0); unfold timer_create, bind; cbn;
    rewrite Hc; cbn; unfold store; cbn.
  all: rewrite lookup_insert_ne by lia.
  all: rewrite lookup_insert_ne by lia.
  all: rewrite lookup_insert_eq; cbn.
  all: eexists; split; [reflexivity|]; cbn.
  all: rewrite Hkc, Hkt, Hnt, Hbrk, Hheap.
  all: split; [reflexivity|].
  all: split; [rewrite lookup_insert_ne, lookup_delete_eq by congruence; reflexivity|].
  all: rewrite !lookup_insert_ne by congruence.
  all: split; [apply lookup_delete_eq|].
  all: destruct (thread_param_ptr d) as [prm|] eqn:E.
  all: try (destruct (Hprm prm eq_refl) as [q Hq]).
  all: split.
  all: try (rewrite lookup_delete_ne by congruence).
  all: try (rewrite lookup_delete_ne by (intros E'; rewrite E' in *; congruence)).
  all: try apply lookup_delete_eq.
  all: try discriminate.
  all: intros prm' [= <-].
  all: rewrite !lookup_insert_ne by (intros E'; rewrite <- E' in *; congruence).
  all: rewrite lookup_delete_ne by (intros E'; rewrite E' in *; congruence).
  all: apply lookup_delete_eq.
Qed.

End ResourceFacts.

(** Re-construction: the timer and the three blocks of the first handle are
    gone before the second [timer_create]; one timer and two blocks are
    live afterwards. *)
Example reconstruction_releases_previous_handle :
  let opts := mrb_hash_value
                (<[MRB_TIMER_POSIX_KEY_THREAD_ID := mrb_float_value 5 0]>
                   {[MRB_TIMER_POSIX_KEY_SIGNO := mrb_str_value "USR1"]}) in
  let w1 := snd (mrb_timer_posix_init linux_x86_64 test_kernel 1 opts empty_world) in
  let w2 := snd (mrb_timer_posix_init linux_x86_64 test_kernel 1 mrb_nil_value w1) in
  (live_blocks w1, live_timers w1) = (3%nat, 1%nat)
  /\ fst (mrb_timer_posix_init linux_x86_64 test_kernel 1 mrb_nil_value w1)
     = Ok (mrb_obj_value 1)
  /\ (live_blocks w2, live_timers w2) = (2%nat, 1%nat)
  /\ ktimers w2 !! 1 = None
  /\ kcalls w2 = [K_timer_create 0 None; K_timer_delete 1;
                  K_timer_create 0
                    (Some {| sigev_notify := SIGEV_THREAD; sigev_signo := 10;
                             sival_ptr := Some 1; sigev_notify_function := true |})].
Proof. vm_compute. repeat split. Qed.

(** C2, at a construction the kernel refuses (clock id 9999): the
    constructor raises the system error, and the [mrb_timer_posix_data] and
    [timer_t] blocks it had allocated are still live, owned by no object;
    with a float [thread_id] the context block is left as well. *)
Theorem failed_construction_leaves_blocks_allocated :
  let bad := {[MRB_TIMER_POSIX_KEY_CLOCK_ID := mrb_fixnum_value 9999]} in
  let w' := snd (mrb_timer_posix_init linux_x86_64 test_kernel 1
                   (mrb_hash_value bad) empty_world) in
  let w'' := snd (mrb_timer_posix_init linux_x86_64 test_kernel 1
                    (mrb_hash_value
                       (<[MRB_TIMER_POSIX_KEY_THREAD_ID := mrb_float_value 5 0]> bad))
                    empty_world) in
  fst (mrb_timer_posix_init linux_x86_64 test_kernel 1 (mrb_hash_value bad) empty_world)
  = Raise (E_SYSTEMCALL_ERROR EINVAL) "timer_create failed"
  /\ live_blocks empty_world = 0%nat
  /\ live_blocks w' = 2%nat
  /\ heap w' !! 1 = Some (Blk_data None)
  /\ heap w' !! 2 = Some (Blk_timer None)
  /\ data_ptr w' !! 1 = None
  /\ live_timers w' = 0%nat
  /\ live_blocks w'' = 3%nat.
Proof. vm_compute. repeat split. Qed.

(** * The branch for unsupported platforms *)

(** C3 fails for construct, disarm and status: the [__APPLE__] branch
    defines none of [initialize], [stop] and [__status_raw]; constructing
    succeeds, the other two are no methods. *)
Lemma unsupported_branch_defines_only_start :
  fst (call linux_x86_64 test_kernel true "initialize" 1 [] empty_world)
  = Ok mrb_nil_value
  /\ fst (call linux_x86_64 test_kernel true "stop" 1 [] empty_world)
     = Raise E_NOMETHOD_ERROR "undefined method"
  /\ fst (call linux_x86_64 test_kernel true "__status_raw" 1 [] empty_world)
     = Raise E_NOMETHOD_ERROR "undefined method".
Proof. repeat split. Qed.

(** C3, as the code has it: without interval timers the gem defines one
    method, [start], which raises [NotImplementedError] whatever its
    arguments; no call on the class changes the heap or reaches the
    kernel. *)
Theorem unsupported_start_not_implemented
    (p : platform) (k : kernel) (name : string) (self : Z)
    (args : list mrb_value) (w : world) :
  mrb_mruby_timer_thread_gem_init true
  = [("Timer::POSIX", "start", F_timer_posix_dummy_start)]
  /\ call p k true "start" self args w
     = (Raise E_NOTIMP_ERROR "Unsupported platform", w)
  /\ snd (call p k true name self args w) = w.
Proof.
  split; [reflexivity|]. split; [reflexivity|].
  unfold call, mrb_mruby_timer_thread_gem_init. cbn [method_lookup].
  rewrite String.eqb_refl. cbn [andb].
  destruct (String.eqb "start" name); [reflexivity|].
  destruct (String.eqb name "initialize"); reflexivity.
Qed.

(** * ["RT" ++ i] inside the range of [int] *)

Module DecimalFacts.

Import Decimal CString.

Ltac digit_cases d :=
  let H := fresh in
  assert (H : d = 0 \/ d = 1 \/ d = 2 \/ d = 3 \/ d = 4
              \/ d = 5 \/ d = 6 \/ d = 7 \/ d = 8 \/ d = 9) by lia;
  repeat (destruct H as [H|H]); rewrite H.

Lemma digit_val_char d : 0 <= d < 10 -> digit_val (digit_char d) = Some d.
Proof. intros Hd. digit_cases d; reflexivity. Qed.

Lemma digit_char_not_NUL d : 0 <= d < 10 -> Ascii.eqb (digit_char d) NUL = false.
Proof. intros Hd. digit_cases d; reflexivity. Qed.

Lemma digit_char_plain d :
  1 <= d < 10 ->
  isspace (digit_char d) = false
  /\ Ascii.eqb (digit_char d) "-" = false
  /\ Ascii.eqb (digit_char d) "+" = false
  /\ Ascii.eqb (digit_char d) "0" = false
  /\ Ascii.eqb "0" (digit_char d) = false.
Proof. intros Hd. digit_cases d; try lia; repeat split. Qed.

(** Reading back what [render] wrote: the digits of [n], then [rest]. *)
Lemma digits_render fuel : forall n rest,
  0 <= n < 10 ^ Z.of_nat fuel ->
  exists m, forall a, digits 10 (render fuel n rest) a = digits 10 rest (a * m + n).
Proof.
  induction fuel as [|fuel IH]; intros n rest Hn.
  - change (10 ^ Z.of_nat 0) with 1 in Hn. exists 1. intros a.
    replace (a * 1 + n) with a by lia. reflexivity.
  - cbn [render]. destruct (Z.ltb_spec n 10) as [Hlt|Hge].
    + exists 10. intros a. cbn [digits].
      rewrite Z.mod_small, digit_val_char by lia.
      destruct (Z.ltb_spec n 10); [reflexivity|lia].
    + assert (Hq : 0 <= n / 10 < 10 ^ Z.of_nat fuel).
      { rewrite Nat2Z.inj_succ, Z.pow_succ_r in Hn by lia.
        Z.div_mod_to_equations. lia. }
      destruct (IH (n / 10) (String (digit_char (n mod 10)) rest) Hq) as [m Hm].
      exists (m * 10). intros a. rewrite Hm. cbn [digits].
      assert (Hd : 0 <= n mod 10 < 10) by (apply Z.mod_pos_bound; lia).
      rewrite digit_val_char by exact Hd.
      destruct (Z.ltb_spec (n mod 10) 10); [|lia].
      f_equal. Z.div_mod_to_equations. lia.
Qed.

Lemma render_head fuel : forall n rest,
  0 < n < 10 ^ Z.of_nat fuel ->
  exists d r, 1 <= d < 10 /\ render fuel n rest = String (digit_char d) r.
Proof.
  induction fuel as [|fuel IH]; intros n rest Hn.
  - change (10 ^ Z.of_nat 0) with 1 in Hn. lia.
  - cbn [render]. destruct (Z.ltb_spec n 10) as [Hlt|Hge].
    + exists n, rest. rewrite Z.mod_small by lia. split; [lia|reflexivity].
    + apply IH. rewrite Nat2Z.inj_succ, Z.pow_succ_r in Hn by lia.
      Z.div_mod_to_equations. lia.
Qed.

Lemma c_str_render fuel : forall n rest,
  c_str rest = rest -> c_str (render fuel n rest) = render fuel n rest.
Proof.
  induction fuel as [|fuel IH]; intros n rest Hr; [exact Hr|].
  assert (Hd : 0 <= n mod 10 < 10) by (apply Z.mod_pos_bound; lia).
  assert (Hc : c_str (String (digit_char (n mod 10)) rest)
               = String (digit_char (n mod 10)) rest).
  { cbn [c_str]. now rewrite digit_char_not_NUL, Hr. }
  cbn [render]. destruct (n <? 10); [exact Hc|]. now apply IH.
Qed.

Lemma fuel_enough n : 0 <= n -> n < 10 ^ Z.of_nat (S (Z.to_nat (Z.log2 n))).
Proof.
  intros Hn. rewrite Nat2Z.inj_succ, Z2Nat.id by apply Z.log2_nonneg.
  destruct (Z.eq_dec n 0) as [->|Hnz]; [reflexivity|].
  pose proof (Z.log2_spec n ltac:(lia)) as [_ Hup].
  pose proof (Z.log2_nonneg n).
  assert (2 ^ Z.succ (Z.log2 n) <= 10 ^ Z.succ (Z.log2 n))
    by (apply Z.pow_le_mono_l; lia).
  lia.
Qed.

Lemma c_str_of_Z n : c_str (of_Z n) = of_Z n.
Proof. apply c_str_render. reflexivity. Qed.

Lemma of_Z_head n :
  0 < n -> exists d r, 1 <= d < 10 /\ of_Z n = String (digit_char d) r.
Proof.
  intros Hn. apply render_head. split; [lia|]. apply fuel_enough. lia.
Qed.

Lemma digits_of_Z n : 0 <= n -> digits 10 (of_Z n) 0 = n.
Proof.
  intros Hn.
  destruct (digits_render (S (Z.to_nat (Z.log2 n))) n EmptyString) as [m Hm].
  { split; [lia|]. now apply fuel_enough. }
  unfold of_Z. rewrite Hm. reflexivity.
Qed.

(** [strtol] reads the numeral of a positive [long] back. *)
Lemma strtol_of_Z w n :
  0 < w -> 0 < n <= 2 ^ (w - 1) - 1 -> strtol w (of_Z n) = n.
Proof.
  intros Hw Hn.
  destruct (of_Z_head n) as (d & r & Hd & E); [lia|].
  destruct (digit_char_plain d Hd) as (Hsp & Hminus & Hplus & Hzero & _).
  pose proof (digits_of_Z n ltac:(lia)) as Hdig. rewrite E in *.
  unfold strtol. cbn [skip_space]. rewrite Hsp, Hminus, Hplus.
  assert (Hmag : magnitude (String (digit_char d) r) = n).
  { unfold magnitude. destruct r; [exact Hdig|]. rewrite Hzero. exact Hdig. }
  rewrite Hmag. unfold clamp. lia.
Qed.

End DecimalFacts.

Section RtTokenFacts.

Context (p : platform) (Hp : platform_ok p).

(** [signm2signo] on the token of a positive index whose sum does not
    leave [int]. *)
Lemma signm2signo_rt_token i :
  0 < i -> SIGRTMIN p + i <= CInt.INT_MAX ->
  signm2signo p (rt_token i)
  = if SIGRTMIN p + i >? SIGRTMAX p then 0 else SIGRTMIN p + i.
Proof.
  intros Hi Hmax. destruct Hp as [_ Hmin Hrange Hlong].
  assert (Htok : rt_token i = String "R" (String "T" (Decimal.of_Z i))) by reflexivity.
  unfold signm2signo. rewrite Htok, not_signame_lookup by apply rt_not_signame.
  destruct (DecimalFacts.of_Z_head i Hi) as (d & r & Hd & E).
  destruct (DecimalFacts.digit_char_plain d Hd) as (_ & _ & _ & _ & Hz).
  assert (Hrt0 : CString.strcmp_eq "RT0" (String "R" (String "T" (Decimal.of_Z i))) = false).
  { rewrite E. unfold CString.strcmp_eq. cbn [String.eqb].
    change (Ascii.eqb "R" "R") with true. change (Ascii.eqb "T" "T") with true.
    cbn iota. now rewrite Hz. }
  rewrite Hrt0.
  assert (Hpre : CString.starts_with "RT" (String "R" (String "T" (Decimal.of_Z i))) = true)
    by reflexivity.
  rewrite Hpre. cbn [CString.advance].
  assert (Hir : CInt.in_int i).
  { unfold CInt.in_int, CInt.INT_MIN, CInt.INT_MAX in *. lia. }
  rewrite DecimalFacts.strtol_of_Z.
  - rewrite (CIntFacts.to_int_small i Hir), CIntFacts.int_add_small.
    + destruct (Z.eqb_spec i 0); [lia|]. reflexivity.
    + unfold CInt.in_int, CInt.INT_MIN, CInt.INT_MAX in *. lia.
  - lia.
  - assert (2 ^ 31 <= 2 ^ (LONG_BIT p - 1)) by (apply Z.pow_le_mono_r; lia).
    unfold CInt.INT_MAX in *. lia.
Qed.

Lemma lookup_name_rt_token i : lookup_name (rt_token i) = rt_token i.
Proof.
  assert (Htok : rt_token i = String "R" (String "T" (Decimal.of_Z i))) by reflexivity.
  unfold lookup_name. rewrite Htok. cbn [CString.c_str].
  change (Ascii.eqb "R" CString.NUL) with false.
  change (Ascii.eqb "T" CString.NUL) with false. cbn iota.
  rewrite DecimalFacts.c_str_of_Z. reflexivity.
Qed.

(** An index inside the real-time range resolves alike as a token and
    through [RTSignal.get]. *)
Lemma rt_token_inside_range i :
  0 <= i -> SIGRTMIN p + i <= SIGRTMAX p ->
  mrb_to_signo p (mrb_str_value (rt_token i)) = Ok (SIGRTMIN p + i)
  /\ mrb_rtsignal_get p i = Ok (mrb_fixnum_value (SIGRTMIN p + i)).
Proof.
  intros Hi Hmax. pose proof Hp as [_ Hmin Hrange _].
  assert (Hir : CInt.in_int i /\ CInt.in_int (SIGRTMIN p + i)).
  { unfold CInt.in_int, CInt.INT_MIN, CInt.INT_MAX in *. lia. }
  split.
  - rewrite mrb_to_signo_str, lookup_name_rt_token. cbv zeta.
    destruct (Z.eq_dec i 0) as [->|Hnz].
    + change (rt_token 0) with "RT0".
      assert (E : signm2signo p "RT0" = SIGRTMIN p).
      { unfold signm2signo. now rewrite not_signame_lookup by apply rt_not_signame. }
      rewrite E, Z.add_0_r. destruct (Z.eqb_spec (SIGRTMIN p) 0); [lia|reflexivity].
    + rewrite signm2signo_rt_token by lia.
      destruct (Z.gtb_spec (SIGRTMIN p + i) (SIGRTMAX p)); [lia|].
      destruct (Z.eqb_spec (SIGRTMIN p + i) 0); [lia|reflexivity].
  - unfold mrb_rtsignal_get.
    rewrite (CIntFacts.to_int_small i), CIntFacts.int_add_small by tauto.
    destruct (Z.gtb_spec (SIGRTMIN p + i) (SIGRTMAX p)); [lia|reflexivity].
Qed.

(** Where no conversion loses bits, above the range and up to [INT_MAX],
    both paths raise the argument error. *)
Lemma rt_token_above_range i :
  SIGRTMAX p < SIGRTMIN p + i <= CInt.INT_MAX ->
  is_argument_error (mrb_to_signo p (mrb_str_value (rt_token i))) = true
  /\ is_argument_error (mrb_rtsignal_get p i) = true.
Proof.
  intros Hi. pose proof Hp as [_ Hmin Hrange _].
  assert (Hir : CInt.in_int i /\ CInt.in_int (SIGRTMIN p + i)).
  { unfold CInt.in_int, CInt.INT_MIN, CInt.INT_MAX in *. lia. }
  split.
  - rewrite mrb_to_signo_str, lookup_name_rt_token. cbv zeta.
    rewrite signm2signo_rt_token by lia.
    destruct (Z.gtb_spec (SIGRTMIN p + i) (SIGRTMAX p)); [|lia].
    assert (Htok : rt_token i = String "R" (String "T" (Decimal.of_Z i))) by reflexivity.
    rewrite Htok. reflexivity.
  - unfold mrb_rtsignal_get.
    rewrite (CIntFacts.to_int_small i), CIntFacts.int_add_small by tauto.
    destruct (Z.gtb_spec (SIGRTMIN p + i) (SIGRTMAX p)); [reflexivity|lia].
Qed.

End RtTokenFacts.

(** * Further properties of the signal directory *)

(** X1: A raw signal number is taken exactly from 0 up to, and not including,
    [SIGRTMAX]; anything else is the argument error. *)
Theorem fixnum_signal_accepted_below_SIGRTMAX (p : platform) (n : Z) :
  CInt.in_int n ->
  (0 <= n < SIGRTMAX p -> mrb_to_signo p (mrb_fixnum_value n) = Ok n)
  /\ (n < 0 \/ SIGRTMAX p <= n ->
      mrb_to_signo p (mrb_fixnum_value n)
      = Raise E_ARGUMENT_ERROR "invalid signal number (%S)").
Proof.
  intros Hn. unfold mrb_to_signo. rewrite (CIntFacts.to_int_small n Hn).
  destruct (Z.ltb_spec n 0), (Z.geb_spec n (SIGRTMAX p)); cbn; split; intros; (lia || reflexivity).
Qed.

Lemma fixnum_signal_accepted_below_SIGRTMAX_witness :
  mrb_to_signo linux_x86_64 (mrb_fixnum_value 10) = Ok 10
  /\ mrb_to_signo linux_x86_64 (mrb_fixnum_value (-1))
     = Raise E_ARGUMENT_ERROR "invalid signal number (%S)".
Proof.
  assert (H10 : CInt.in_int 10) by (vm_compute; intuition discriminate).
  assert (H1 : CInt.in_int (-1)) by (vm_compute; intuition discriminate).
  split.
  - apply (proj1 (fixnum_signal_accepted_below_SIGRTMAX linux_x86_64 10 H10)).
    vm_compute. intuition discriminate.
  - apply (proj2 (fixnum_signal_accepted_below_SIGRTMAX linux_x86_64 (-1) H1)).
    left. lia.
Defined.

(** X2: The highest real-time signal can be named, by [RTSignal.get] and by
    its ["RT"] token, but not passed as the number those give. *)
Theorem top_rt_signal_named_but_not_numbered (p : platform) :
  platform_ok p ->
  mrb_rtsignal_get p (SIGRTMAX p - SIGRTMIN p) = Ok (mrb_fixnum_value (SIGRTMAX p))
  /\ mrb_to_signo p (mrb_str_value (rt_token (SIGRTMAX p - SIGRTMIN p)))
     = Ok (SIGRTMAX p)
  /\ mrb_to_signo p (mrb_fixnum_value (SIGRTMAX p))
     = Raise E_ARGUMENT_ERROR "invalid signal number (%S)".
Proof.
  intros Hp. pose proof Hp as [_ Hmin Hrange _].
  destruct (rt_token_inside_range p Hp (SIGRTMAX p - SIGRTMIN p)) as [Ht Hg]; try lia.
  replace (SIGRTMIN p + (SIGRTMAX p - SIGRTMIN p)) with (SIGRTMAX p) in * by lia.
  split; [exact Hg|]. split; [exact Ht|].
  unfold mrb_to_signo. rewrite CIntFacts.to_int_small.
  - destruct (Z.ltb_spec (SIGRTMAX p) 0), (Z.geb_spec (SIGRTMAX p) (SIGRTMAX p));
      cbn; (lia || reflexivity).
  - unfold CInt.in_int, CInt.INT_MIN, CInt.INT_MAX in *. lia.
Qed.

Lemma top_rt_signal_named_but_not_numbered_witness :
  mrb_rtsignal_get linux_x86_64 30 = Ok (mrb_fixnum_value 64)
  /\ mrb_to_signo linux_x86_64 (mrb_str_value "RT30") = Ok 64
  /\ mrb_to_signo linux_x86_64 (mrb_fixnum_value 64)
     = Raise E_ARGUMENT_ERROR "invalid signal number (%S)".
Proof. exact (top_rt_signal_named_but_not_numbered linux_x86_64 linux_x86_64_ok). Defined.

Section RtTokenEdges.

Context (p : platform) (Hp : platform_ok p).

Lemma signm2signo_RT_suffix t :
  CString.strcmp_eq "RT0" (String "R" (String "T" t)) = false ->
  signm2signo p (String "R" (String "T" t))
  = let ret := CInt.to_int (CString.strtol (LONG_BIT p) t) in
    if (ret =? 0) || (CInt.int_add (SIGRTMIN p) ret >? SIGRTMAX p)
    then 0 else CInt.int_add (SIGRTMIN p) ret.
Proof.
  intros H0. unfold signm2signo.
  rewrite not_signame_lookup by apply rt_not_signame.
  rewrite H0. reflexivity.
Qed.

Lemma strtol_negative n :
  0 < n <= 2 ^ (LONG_BIT p - 1) ->
  CString.strtol (LONG_BIT p) (String "-" (Decimal.of_Z n)) = - n.
Proof.
  intros Hn.
  destruct (DecimalFacts.of_Z_head n) as (d & r & Hd & E); [lia|].
  destruct (DecimalFacts.digit_char_plain d Hd) as (_ & _ & _ & Hzero & _).
  pose proof (DecimalFacts.digits_of_Z n ltac:(lia)) as Hdig.
  unfold CString.strtol. cbn [CString.skip_space].
  change (CString.isspace "-") with false. cbn iota.
  change (Ascii.eqb "-" "-") with true. cbn iota.
  assert (Hmag : CString.magnitude (Decimal.of_Z n) = n).
  { rewrite E in *. unfold CString.magnitude. destruct r; [exact Hdig|].
    rewrite Hzero. exact Hdig. }
  rewrite Hmag. unfold CString.clamp. lia.
Qed.

End RtTokenEdges.

(** X3: The ["RT"] token takes a negative offset: ["RT-n"] resolves to
    [SIGRTMIN - n], a number below the real-time range, unless that is 0. *)
Theorem rt_token_negative_offset (p : platform) (n : Z) :
  platform_ok p ->
  0 < n <= 2 ^ 31 ->
  n <> SIGRTMIN p ->
  mrb_to_signo p (mrb_str_value ("RT-" ++ Decimal.of_Z n)) = Ok (SIGRTMIN p - n).
Proof.
  intros Hp Hn Hne. pose proof Hp as [_ Hmin Hrange Hlong].
  assert (Hpow : 2 ^ 31 <= 2 ^ (LONG_BIT p - 1)) by (apply Z.pow_le_mono_r; lia).
  assert (Htok : "RT-" ++ Decimal.of_Z n
                 = String "R" (String "T" (String "-" (Decimal.of_Z n)))) by reflexivity.
  assert (Hname : lookup_name ("RT-" ++ Decimal.of_Z n) = "RT-" ++ Decimal.of_Z n).
  { unfold lookup_name. rewrite Htok. cbn [CString.c_str].
    change (Ascii.eqb "R" CString.NUL) with false.
    change (Ascii.eqb "T" CString.NUL) with false.
    change (Ascii.eqb "-" CString.NUL) with false. cbn iota.
    rewrite DecimalFacts.c_str_of_Z. reflexivity. }
  rewrite mrb_to_signo_str, Hname, Htok. cbv zeta.
  rewrite signm2signo_RT_suffix by reflexivity. cbv zeta.
  rewrite strtol_negative by lia.
  assert (Hi : CInt.in_int (- n) /\ CInt.in_int (SIGRTMIN p + - n)).
  { unfold CInt.in_int, CInt.INT_MIN, CInt.INT_MAX in *. lia. }
  rewrite (CIntFacts.to_int_small (- n)), CIntFacts.int_add_small by tauto.
  destruct (Z.eqb_spec (- n) 0); [lia|].
  destruct (Z.gtb_spec (SIGRTMIN p + - n) (SIGRTMAX p)); [lia|]. cbn [orb].
  destruct (Z.eqb_spec (SIGRTMIN p + - n) 0); [lia|]. cbn [andb].
  reflexivity.
Qed.

Lemma rt_token_negative_offset_witness :
  mrb_to_signo linux_x86_64 (mrb_str_value "RT-20") = Ok 14.
Proof.
  apply (rt_token_negative_offset linux_x86_64 20 linux_x86_64_ok).
  - lia.
  - vm_compute. discriminate.
Defined.

(** X4: An ["RT"] token whose text after ["RT"] does not read as a non-zero
    [int] is refused, the one token ["RT0"] apart. *)
Theorem rt_token_zero_offset_refused (p : platform) (t : string) :
  CString.c_str t = t ->
  t <> "0" ->
  CInt.to_int (CString.strtol (LONG_BIT p) t) = 0 ->
  mrb_to_signo p (mrb_str_value ("RT" ++ t))
  = Raise E_ARGUMENT_ERROR "unsupported signal"
  /\ mrb_to_signo p (mrb_str_value "RT0")
     = if SIGRTMIN p =? 0 then Raise E_ARGUMENT_ERROR "unsupported signal"
       else Ok (SIGRTMIN p).
Proof.
  intros Hc Ht Hz. split.
  - assert (Htok : "RT" ++ t = String "R" (String "T" t)) by reflexivity.
    assert (Hname : lookup_name ("RT" ++ t) = "RT" ++ t).
    { unfold lookup_name. rewrite Htok. cbn [CString.c_str].
      change (Ascii.eqb "R" CString.NUL) with false.
      change (Ascii.eqb "T" CString.NUL) with false. cbn iota.
      rewrite Hc. reflexivity. }
    rewrite mrb_to_signo_str, Hname, Htok. cbv zeta.
    rewrite signm2signo_RT_suffix.
    + cbv zeta. rewrite Hz. reflexivity.
    + unfold CString.strcmp_eq.
      destruct (String.eqb_spec "RT0" (String "R" (String "T" t))) as [E|E];
        [|reflexivity].
      exfalso. apply Ht. now injection E.
  - rewrite mrb_to_signo_str. cbv zeta.
    assert (E : signm2signo p "RT0" = SIGRTMIN p).
    { unfold signm2signo. now rewrite not_signame_lookup by apply rt_not_signame. }
    change (lookup_name "RT0") with "RT0". rewrite E.
    destruct (SIGRTMIN p =? 0); reflexivity.
Qed.

Lemma rt_token_zero_offset_refused_witness :
  mrb_to_signo linux_x86_64 (mrb_str_value "RTMIN")
  = Raise E_ARGUMENT_ERROR "unsupported signal".
Proof.
  apply (rt_token_zero_offset_refused linux_x86_64 "MIN").
  - reflexivity.
  - discriminate.
  - reflexivity.
Defined.

(** X5: The ["SIG"] in front of a name is dropped once: a table name with it
    twice is refused. *)
Theorem sig_prefix_dropped_once (p : platform) (N : string) (signo : Z) :
  siglist_lookup (siglist p) N = Some signo ->
  mrb_to_signo p (mrb_str_value ("SIGSIG" ++ N))
  = Raise E_ARGUMENT_ERROR "unsupported signal".
Proof.
  intros Hl.
  assert (Hs : is_signame N = true) by (eapply siglist_lookup_signame; exact Hl).
  assert (Hall : forallb (fun nm => plain_name nm
                                    && negb (is_signame ("SIG" ++ nm))
                                    && negb (String.eqb ("SIG" ++ nm) "EXIT"))
                   signames = true) by reflexivity.
  rewrite forallb_forall in Hall.
  unfold is_signame in Hs. apply existsb_exists in Hs as [x [Hin Heq]].
  apply String.eqb_eq in Heq. subst x.
  specialize (Hall N Hin).
  apply andb_true_iff in Hall as [Hall Hexit].
  apply andb_true_iff in Hall as [Hplain Hnot].
  apply negb_true_iff in Hnot. apply negb_true_iff in Hexit.
  unfold plain_name in Hplain. apply andb_true_iff in Hplain as [Hc _].
  apply String.eqb_eq in Hc.
  assert (Hname : lookup_name ("SIGSIG" ++ N) = "SIG" ++ N).
  { unfold lookup_name.
    change (CString.c_str ("SIGSIG" ++ N)) with ("SIGSIG" ++ CString.c_str N).
    rewrite Hc. reflexivity. }
  rewrite mrb_to_signo_str, Hname. cbv zeta.
  rewrite signm2signo_unmatched.
  - unfold CString.strcmp_eq. rewrite Hexit. reflexivity.
  - now apply not_signame_lookup.
  - reflexivity.
Qed.

Lemma sig_prefix_dropped_once_witness :
  mrb_to_signo linux_x86_64 (mrb_str_value "SIGSIGINT")
  = Raise E_ARGUMENT_ERROR "unsupported signal".
Proof.
  apply (sig_prefix_dropped_once linux_x86_64 "INT" 2). reflexivity.
Defined.

Section TableFacts.

Context (p : platform).

Lemma siglist_lookup_app l1 l2 nm :
  siglist_lookup (l1 ++ l2) nm
  = match siglist_lookup l1 nm with
    | Some signo => Some signo
    | None => siglist_lookup l2 nm
    end.
Proof.
  induction l1 as [|[signm n] l1 IH]; [reflexivity|]. cbn.
  destruct (CString.strcmp_eq signm nm); [reflexivity|exact IH].
Qed.

Lemma siglist_lookup_ifdef macro signm nm :
  siglist_lookup (ifdef p macro signm) nm
  = if String.eqb signm nm then sigmacro p macro else None.
Proof.
  unfold ifdef. destruct (sigmacro p macro); cbn; unfold CString.strcmp_eq;
    destruct (String.eqb signm nm); reflexivity.
Qed.

Lemma siglist_lookup_CLD nm :
  siglist_lookup (match sigmacro p "SIGCLD" with
                  | Some signo => [("CLD", signo)]
                  | None => ifdef p "SIGCHLD" "CLD"
                  end) nm
  = if String.eqb "CLD" nm
    then match sigmacro p "SIGCLD" with
         | Some signo => Some signo
         | None => sigmacro p "SIGCHLD"
         end
    else None.
Proof.
  destruct (sigmacro p "SIGCLD"); [|apply siglist_lookup_ifdef].
  cbn. unfold CString.strcmp_eq. destruct (String.eqb "CLD" nm); reflexivity.
Qed.

Lemma siglist_lookup_one signm signo nm :
  siglist_lookup [(signm, signo)] nm = if String.eqb signm nm then Some signo else None.
Proof. reflexivity. Qed.

Lemma siglist_lookup_guarded macro name :
  In (macro, name) guarded_entries ->
  siglist_lookup (siglist p) name = sigmacro p macro.
Proof.
  intros Hin. unfold siglist.
  rewrite !siglist_lookup_app, !siglist_lookup_ifdef, siglist_lookup_CLD,
    !siglist_lookup_one.
  unfold guarded_entries in Hin. cbn [In] in Hin.
  repeat (destruct Hin as [[= <- <-]|Hin];
          [cbn; destruct (sigmacro p _); reflexivity|]).
  destruct Hin.
Qed.

End TableFacts.

(** X6: Every name of the table resolves to the value of its own macro, no
    entry hides another; where the platform lacks the macro the name is
    refused.  ["CLD"] is [SIGCLD], or [SIGCHLD] without it. *)
Theorem table_name_resolves_to_its_macro (p : platform) (macro name : string) :
  In (macro, name) guarded_entries ->
  (forall n, sigmacro p macro = Some n -> n <> 0 ->
     mrb_to_signo p (mrb_str_value name) = Ok n)
  /\ (sigmacro p macro = None ->
      mrb_to_signo p (mrb_str_value name)
      = Raise E_ARGUMENT_ERROR "unsupported signal")
  /\ siglist_lookup (siglist p) "CLD"
     = match sigmacro p "SIGCLD" with
       | Some signo => Some signo
       | None => sigmacro p "SIGCHLD"
       end.
Proof.
  intros Hin.
  pose proof (siglist_lookup_guarded p macro name Hin) as Hl.
  assert (Hall : forallb (fun e => plain_name (snd e)
                                   && negb (CString.starts_with "RT" (snd e))
                                   && negb (String.eqb (snd e) "EXIT"))
                   guarded_entries = true) by reflexivity.
  rewrite forallb_forall in Hall. specialize (Hall (macro, name) Hin). cbn [snd] in Hall.
  apply andb_true_iff in Hall as [Hall Hexit].
  apply andb_true_iff in Hall as [Hplain Hrt].
  apply negb_true_iff in Hrt. apply negb_true_iff in Hexit.
  split; [|split].
  - intros n Hn Hnz. rewrite mrb_to_signo_str, lookup_name_plain by exact Hplain.
    cbv zeta. unfold signm2signo. rewrite Hl, Hn.
    apply Z.eqb_neq in Hnz. now rewrite Hnz.
  - intros Hn. rewrite mrb_to_signo_str, lookup_name_plain by exact Hplain.
    cbv zeta. rewrite signm2signo_unmatched; [|now rewrite Hl|exact Hrt].
    unfold CString.strcmp_eq. now rewrite Hexit.
  - unfold siglist.
    rewrite !siglist_lookup_app, !siglist_lookup_ifdef, siglist_lookup_CLD,
      !siglist_lookup_one.
    cbn. destruct (sigmacro p "SIGCLD"); [reflexivity|].
    destruct (sigmacro p "SIGCHLD"); reflexivity.
Qed.

Lemma table_name_resolves_to_its_macro_witness :
  mrb_to_signo linux_x86_64 (mrb_str_value "WINCH") = Ok 28
  /\ mrb_to_signo linux_x86_64 (mrb_str_value "EMT")
     = Raise E_ARGUMENT_ERROR "unsupported signal".
Proof.
  split.
  - refine (proj1 (table_name_resolves_to_its_macro linux_x86_64 "SIGWINCH" "WINCH" _)
              28 _ _).
    + vm_compute. tauto.
    + reflexivity.
    + discriminate.
  - refine (proj1 (proj2 (table_name_resolves_to_its_macro linux_x86_64 "SIGEMT" "EMT" _))
              _).
    + vm_compute. tauto.
    + reflexivity.
Defined.

(** * Further properties of arming *)

Lemma self_timer_of_handle self a d id w :
  has_handle self a d id w -> self_timer self w = (Ok id, w).
Proof.
  intros (Hs & Ha & Ht).
  unfold self_timer, bind, get_DATA_PTR, load_data, load_timer.
  now rewrite Hs, Ha, Ht.
Qed.


Lemma self_timer_no_handle self w :
  data_ptr w !! self = None -> self_timer self w = (Undefined, w).
Proof.
  intros Hs. unfold self_timer, bind, get_DATA_PTR, undefined. now rewrite Hs.
Qed.

Lemma self_data_no_handle self w :
  data_ptr w !! self = None -> self_data self w = (Undefined, w).
Proof.
  intros Hs. unfold self_data, bind, get_DATA_PTR, undefined. now rewrite Hs.
Qed.

(** [self_timer] gives a timer or follows a bad pointer; it raises nothing
    and changes nothing. *)
Lemma self_timer_cases self w :
  (exists id, self_timer self w = (Ok id, w)) \/ self_timer self w = (Undefined, w).
Proof.
  unfold self_timer, bind, get_DATA_PTR, load_data, load_timer, undefined.
  destruct (data_ptr w !! self) as [a|]; [|now right].
  destruct (heap w !! a) as [[| |[d|]]|]; try now right.
  destruct (heap w !! timer_ptr d) as [[|[id|]|]|]; try now right.
  left. now exists id.
Qed.

(** X7: Arming ends in the argument error exactly for a start of -1000 ms or
    less, whatever the interval and the state of the object. *)
Theorem arm_argument_error_iff (k : kernel) (self start : Z)
    (interval : option Z) (w : world) :
  is_argument_error (fst (mrb_timer_posix_start k self start interval w)) = true
  <-> start <= -1000.
Proof.
  unfold mrb_timer_posix_start.
  destruct (start_itimerspec start interval) as [ts|] eqn:E.
  - assert (Hn : ~ start <= -1000).
    { intros H. apply (start_itimerspec_None start interval) in H. congruence. }
    split; [|tauto]. intros H. exfalso. revert H.
    unfold bind. destruct (self_timer_cases self w) as [[id ->]| ->]; [|discriminate].
    unfold timer_settime. destruct (settime_errno k w id ts); discriminate.
  - split; [|reflexivity]. intros _. now apply (start_itimerspec_None start interval).
Qed.

(** X8: For a start between -1000 and 0 ms the validation passes, and
    [timer_settime] is called with 0 seconds and the negative nanoseconds
    [start * 1000000]. *)
Theorem arm_negative_fraction_reaches_kernel (k : kernel) (self a : Z)
    (d : mrb_timer_posix_data) (id start : Z) (interval : option Z) (w : world) :
  has_handle self a d id w ->
  -1000 < start < 0 ->
  exists ts,
    start_itimerspec start interval = Some ts
    /\ it_value ts = {| tv_sec := 0; tv_nsec := start * 1000000 |}
    /\ kcalls (snd (mrb_timer_posix_start k self start interval w))
       = K_timer_settime id ts :: kcalls w.
Proof.
  intros Hh Hs.
  destruct (start_itimerspec start interval) as [ts|] eqn:E.
  - exists ts. split; [reflexivity|]. split.
    + unfold start_itimerspec, mrb_set_itimerspec in E.
      assert (Hq : Z.quot start 1000 = 0) by (Z.quot_rem_to_equations; lia).
      assert (Hr : Z.rem start 1000 = start) by (Z.quot_rem_to_equations; lia).
      rewrite Hq, Hr in E.
      destruct (default (-1) interval >=? 0);
        destruct (_ || _) in E; try discriminate; now injection E as <-.
    + apply start_calls_settime; [exact E|]. eapply self_timer_of_handle; exact Hh.
  - apply (start_itimerspec_None start interval) in E. lia.
Qed.

Lemma constructed_has_handle : has_handle 1 1 constructed_data 1 constructed.
Proof. vm_compute. repeat split. Qed.

Lemma arm_negative_fraction_reaches_kernel_witness :
  exists ts,
    start_itimerspec (-250) None = Some ts
    /\ it_value ts = {| tv_sec := 0; tv_nsec := -250 * 1000000 |}
    /\ kcalls (snd (mrb_timer_posix_start test_kernel 1 (-250) None constructed))
       = K_timer_settime 1 ts :: kcalls constructed.
Proof.
  apply (arm_negative_fraction_reaches_kernel test_kernel 1 1 constructed_data 1
           (-250) None constructed constructed_has_handle).
  lia.
Defined.

(** X9: For milliseconds that are not negative the setting built is one the
    kernel can take (seconds not negative, nanoseconds from 0 to below
    10^9) and loses nothing: the milliseconds can be read back from it. *)
Theorem arm_setting_valid_and_lossless (start interval : Z) :
  0 <= start -> 0 <= interval ->
  exists ts,
    start_itimerspec start (Some interval) = Some ts
    /\ valid_timespec (it_value ts) = true
    /\ valid_timespec (it_interval ts) = true
    /\ timespec_ms (it_value ts) = start
    /\ timespec_ms (it_interval ts) = interval.
Proof.
  intros Hs Hi. eexists. split; [apply start_itimerspec_nonneg; assumption|].
  unfold valid_timespec, timespec_ms, ms_timespec. cbn.
  repeat split.
  - apply andb_true_iff; split; [apply andb_true_iff; split|].
    + apply Z.leb_le. Z.div_mod_to_equations. lia.
    + apply Z.leb_le. Z.div_mod_to_equations. lia.
    + apply Z.ltb_lt. Z.div_mod_to_equations. lia.
  - apply andb_true_iff; split; [apply andb_true_iff; split|].
    + apply Z.leb_le. Z.div_mod_to_equations. lia.
    + apply Z.leb_le. Z.div_mod_to_equations. lia.
    + apply Z.ltb_lt. Z.div_mod_to_equations. lia.
  - rewrite Z.div_mul by lia. Z.div_mod_to_equations. lia.
  - rewrite Z.div_mul by lia. Z.div_mod_to_equations. lia.
Qed.

Lemma arm_setting_valid_and_lossless_witness :
  exists ts,
    start_itimerspec 1500 (Some 250) = Some ts
    /\ valid_timespec (it_value ts) = true
    /\ valid_timespec (it_interval ts) = true
    /\ timespec_ms (it_value ts) = 1500
    /\ timespec_ms (it_interval ts) = 250.
Proof. apply (arm_setting_valid_and_lossless 1500 250); lia. Defined.

Section QueryFacts.

Context (k : kernel).

Lemma status_raw_of_handle self a d id w :
  has_handle self a d id w ->
  mrb_timer_posix_status_raw k self w
  = match gettime_result k w id with
    | inl e => (Raise (E_SYSTEMCALL_ERROR e) "timer_gettime", log (K_timer_gettime id) w)
    | inr ts => (Ok (mrb_hash_value (status_hash ts)), log (K_timer_gettime id) w)
    end.
Proof.
  intros Hh. unfold mrb_timer_posix_status_raw, bind.
  rewrite (self_timer_of_handle _ _ _ _ _ Hh). unfold timer_gettime.
  destruct (gettime_result k w id); reflexivity.
Qed.

Lemma is_running_of_handle self a d id w :
  has_handle self a d id w ->
  mrb_timer_posix_is_running k self w
  = match gettime_result k w id with
    | inl e => (Raise (E_SYSTEMCALL_ERROR e) "timer_gettime", log (K_timer_gettime id) w)
    | inr ts =>
        (Ok (if negb (tv_sec (it_value ts) =? 0) || negb (tv_nsec (it_value ts) =? 0)
             then mrb_true_value else mrb_false_value),
         log (K_timer_gettime id) w)
    end.
Proof.
  intros Hh. unfold mrb_timer_posix_is_running, bind.
  rewrite (self_timer_of_handle _ _ _ _ _ Hh). unfold timer_gettime.
  destruct (gettime_result k w id); reflexivity.
Qed.

Lemma has_handle_log self a d id c w :
  has_handle self a d id w -> has_handle self a d id (log c w).
Proof. intros H. exact H. Qed.

End QueryFacts.

(** X10: [running?] and [__status_raw] read the same kernel answer: where one
    fails with the kernel's error so does the other; otherwise the hash has
    the four fields under string keys, and [running?] is false exactly when
    its ["value.sec"] and ["value.nsec"] are both 0. *)
Theorem running_agrees_with_status (k : kernel) (self a : Z)
    (d : mrb_timer_posix_data) (id : Z) (w : world) :
  has_handle self a d id w ->
  (forall e, gettime_result k w id = inl e ->
     fst (mrb_timer_posix_status_raw k self w)
     = Raise (E_SYSTEMCALL_ERROR e) "timer_gettime"
     /\ fst (mrb_timer_posix_is_running k self w)
        = Raise (E_SYSTEMCALL_ERROR e) "timer_gettime")
  /\ (forall ts, gettime_result k w id = inr ts ->
      exists h,
        fst (mrb_timer_posix_status_raw k self w) = Ok (mrb_hash_value h)
        /\ dom h = {[Str "value.sec"; Str "value.nsec";
                     Str "interval.sec"; Str "interval.nsec"]}
        /\ h !! Str "value.sec" = Some (mrb_fixnum_value (tv_sec (it_value ts)))
        /\ h !! Str "value.nsec" = Some (mrb_fixnum_value (tv_nsec (it_value ts)))
        /\ h !! Str "interval.sec" = Some (mrb_fixnum_value (tv_sec (it_interval ts)))
        /\ h !! Str "interval.nsec" = Some (mrb_fixnum_value (tv_nsec (it_interval ts)))
        /\ (fst (mrb_timer_posix_is_running k self w) = Ok mrb_false_value
            <-> h !! Str "value.sec" = Some (mrb_fixnum_value 0)
                /\ h !! Str "value.nsec" = Some (mrb_fixnum_value 0))
        /\ (fst (mrb_timer_posix_is_running k self w) = Ok mrb_true_value
            \/ fst (mrb_timer_posix_is_running k self w) = Ok mrb_false_value)).
Proof.
  intros Hh.
  rewrite (status_raw_of_handle k _ _ _ _ _ Hh), (is_running_of_handle k _ _ _ _ _ Hh).
  split.
  - intros e ->. split; reflexivity.
  - intros ts ->. exists (status_hash ts). cbn [fst].
    assert (L1 : status_hash ts !! Str "value.sec"
                 = Some (mrb_fixnum_value (tv_sec (it_value ts)))).
    { unfold status_hash. rewrite !lookup_insert_ne by discriminate.
      apply lookup_insert_eq. }
    assert (L2 : status_hash ts !! Str "value.nsec"
                 = Some (mrb_fixnum_value (tv_nsec (it_value ts)))).
    { unfold status_hash. rewrite !lookup_insert_ne by discriminate.
      apply lookup_insert_eq. }
    split; [reflexivity|]. split.
    { unfold status_hash. rewrite !dom_insert_L, dom_empty_L. set_solver. }
    split; [exact L1|]. split; [exact L2|]. split.
    { unfold status_hash. rewrite !lookup_insert_ne by discriminate.
      apply lookup_insert_eq. }
    split.
    { unfold status_hash. apply lookup_insert_eq. }
    rewrite L1, L2.
    destruct (Z.eqb_spec (tv_sec (it_value ts)) 0) as [E1|E1];
      destruct (Z.eqb_spec (tv_nsec (it_value ts)) 0) as [E2|E2]; cbn;
      (split; [split|]); try (now left); try (now right);
      try discriminate; try congruence.
    all: try (intros [H1 H2]; congruence).
    all: try (rewrite E1, E2; split; reflexivity).
Qed.

Lemma running_agrees_with_status_witness :
  fst (mrb_timer_posix_is_running test_kernel 1 constructed) = Ok mrb_false_value.
Proof.
  destruct (running_agrees_with_status test_kernel 1 1 constructed_data 1 constructed
              constructed_has_handle) as [_ H].
  destruct (H zero_spec eq_refl) as (h & Hs & _ & H1 & H2 & _ & _ & Hrun & _).
  apply Hrun. split; [exact H1|exact H2].
Defined.

(** X11: [stop] is [start] with 0 ms, and on a timer the kernel lets us set it
    leaves a disarmed timer: [running?] is false and [__status_raw] is all
    zeros, for a kernel that reports a disarmed timer as zeros. *)
Theorem disarm_is_arm_zero (k : kernel) (self a : Z) (d : mrb_timer_posix_data)
    (id : Z) (t : ktimer) (w : world) :
  has_handle self a d id w ->
  ktimers w !! id = Some t ->
  settime_errno k w id zero_spec = None ->
  (forall w0 t0, ktimers w0 !! id = Some t0 -> kt_spec t0 = zero_spec ->
     gettime_result k w0 id = inr zero_spec) ->
  mrb_timer_posix_stop k self w = mrb_timer_posix_start k self 0 None w
  /\ mrb_timer_posix_stop k self w = mrb_timer_posix_start k self 0 (Some 0) w
  /\ exists w',
       mrb_timer_posix_stop k self w = (Ok (mrb_obj_value self), w')
       /\ kcalls w' = K_timer_settime id zero_spec :: kcalls w
       /\ fst (mrb_timer_posix_is_running k self w') = Ok mrb_false_value
       /\ fst (mrb_timer_posix_status_raw k self w')
          = Ok (mrb_hash_value (status_hash zero_spec)).
Proof.
  intros Hh Ht Hset Hget. split; [reflexivity|]. split; [reflexivity|].
  unfold mrb_timer_posix_stop. cbn [mrb_set_itimerspec Z.ltb orb].
  change (mrb_set_itimerspec 0 0 0 0) with (Some zero_spec). cbv iota.
  unfold bind. rewrite (self_timer_of_handle _ _ _ _ _ Hh).
  unfold timer_settime. rewrite Hset. cbn.
  eexists. split; [reflexivity|]. split; [reflexivity|].
  match goal with |- fst (_ _ _ ?w') = _ /\ _ => set (w1 := w') end.
  assert (Hh1 : has_handle self a d id w1) by exact Hh.
  assert (Hg : gettime_result k w1 id = inr zero_spec).
  { apply (Hget w1 {| kt_clock := kt_clock t; kt_sev := kt_sev t; kt_spec := zero_spec |}).
    - subst w1. cbn. rewrite lookup_alter_eq, Ht. reflexivity.
    - reflexivity. }
  rewrite (is_running_of_handle k _ _ _ _ _ Hh1), (status_raw_of_handle k _ _ _ _ _ Hh1), Hg.
  split; reflexivity.
Qed.

Lemma disarm_is_arm_zero_witness :
  exists w',
    mrb_timer_posix_stop test_kernel 1 constructed = (Ok (mrb_obj_value 1), w')
    /\ kcalls w' = K_timer_settime 1 zero_spec :: kcalls constructed
    /\ fst (mrb_timer_posix_is_running test_kernel 1 w') = Ok mrb_false_value
    /\ fst (mrb_timer_posix_status_raw test_kernel 1 w')
       = Ok (mrb_hash_value (status_hash zero_spec)).
Proof.
  refine (proj2 (proj2 (disarm_is_arm_zero test_kernel 1 1 constructed_data 1
            {| kt_clock := 0; kt_sev := None; kt_spec := zero_spec |} constructed
            constructed_has_handle _ _ _))).
  - vm_compute. reflexivity.
  - vm_compute. reflexivity.
  - intros w0 t0 H0 Hz. cbn. rewrite H0, Hz. reflexivity.
Defined.

Section FrameFacts.

Context (k : kernel).

Lemma keeps_handles_refl w : keeps_handles w w.
Proof. repeat split. now left. Qed.

Lemma keeps_handles_log c w : keeps_handles w (log c w).
Proof. repeat split. right. now exists c. Qed.

Lemma settime_keeps_handles id ts w :
  keeps_handles w (snd (timer_settime k id ts w)).
Proof.
  unfold timer_settime. destruct (settime_errno k w id ts); cbn.
  - apply keeps_handles_log.
  - repeat split; cbn; [apply dom_alter_L|]. right. eexists. reflexivity.
Qed.

Lemma start_keeps_handles self start interval w :
  keeps_handles w (snd (mrb_timer_posix_start k self start interval w)).
Proof.
  unfold mrb_timer_posix_start.
  destruct (start_itimerspec start interval) as [ts|]; [|apply keeps_handles_refl].
  unfold bind. destruct (self_timer_cases self w) as [[id ->]| ->];
    [|apply keeps_handles_refl].
  pose proof (settime_keeps_handles id ts w) as H.
  destruct (timer_settime k id ts w) as [[[e|]| |] w']; exact H.
Qed.

Lemma gettime_keeps_handles self w (f : Z + itimerspec -> M mrb_value) :
  (forall r w0, snd (f r w0) = w0) ->
  keeps_handles w
    (snd (bind (self_timer self) (fun id => bind (timer_gettime k id) f) w)).
Proof.
  intros Hf. unfold bind.
  destruct (self_timer_cases self w) as [[id ->]| ->]; [|apply keeps_handles_refl].
  unfold timer_gettime.
  pose proof (Hf (gettime_result k w id) (log (K_timer_gettime id) w)) as H.
  destruct (f (gettime_result k w id) (log (K_timer_gettime id) w)) as [[v| |] w'];
    cbn in H; subst w'; apply keeps_handles_log.
Qed.

End FrameFacts.

(** X12: Arming, disarming and the four queries never allocate or free a block,
    never create or delete a timer, never touch a [DATA_PTR]; each makes at
    most one kernel call, and [signo] and [clock_id] make none. *)
Theorem methods_keep_heap_and_handles (k : kernel) (self start : Z)
    (interval : option Z) (w : world) :
  keeps_handles w (snd (mrb_timer_posix_start k self start interval w))
  /\ keeps_handles w (snd (mrb_timer_posix_stop k self w))
  /\ keeps_handles w (snd (mrb_timer_posix_status_raw k self w))
  /\ keeps_handles w (snd (mrb_timer_posix_is_running k self w))
  /\ snd (mrb_timer_posix_signo self w) = w
  /\ snd (mrb_timer_posix_clockid self w) = w.
Proof.
  split; [apply start_keeps_handles|].
  split; [apply (start_keeps_handles k self 0 None w)|].
  split.
  { apply gettime_keeps_handles. intros [e|ts] w0; reflexivity. }
  split.
  { apply gettime_keeps_handles. intros [e|ts] w0; reflexivity. }
  unfold mrb_timer_posix_signo, mrb_timer_posix_clockid, self_data, bind,
    get_DATA_PTR, load_data, undefined.
  destruct (data_ptr w !! self) as [a|]; [|split; reflexivity].
  destruct (heap w !! a) as [[| |[d|]]|]; try (split; reflexivity).
  destruct (timer_signo d >? 0); split; reflexivity.
Qed.

(** X13: On an object whose [DATA_PTR] is NULL every method follows the null
    pointer, except that [start] first refuses a start of -1000 ms or
    less. *)
Theorem methods_without_handle_undefined (k : kernel) (self : Z) (w : world) :
  data_ptr w !! self = None ->
  (forall start interval, -1000 < start ->
     mrb_timer_posix_start k self start interval w = (Undefined, w))
  /\ mrb_timer_posix_stop k self w = (Undefined, w)
  /\ mrb_timer_posix_status_raw k self w = (Undefined, w)
  /\ mrb_timer_posix_is_running k self w = (Undefined, w)
  /\ mrb_timer_posix_signo self w = (Undefined, w)
  /\ mrb_timer_posix_clockid self w = (Undefined, w).
Proof.
  intros Hs.
  pose proof (self_timer_no_handle self w Hs) as Ht.
  pose proof (self_data_no_handle self w Hs) as Hd.
  assert (Hstart : forall start interval, -1000 < start ->
            mrb_timer_posix_start k self start interval w = (Undefined, w)).
  { intros start interval Hstart. unfold mrb_timer_posix_start.
    destruct (start_itimerspec start interval) as [ts|] eqn:E.
    - unfold bind. now rewrite Ht.
    - apply (start_itimerspec_None start interval) in E. lia. }
  split; [exact Hstart|].
  split; [apply (Hstart 0 None); lia|].
  unfold mrb_timer_posix_status_raw, mrb_timer_posix_is_running,
    mrb_timer_posix_signo, mrb_timer_posix_clockid, bind.
  rewrite Ht, Hd. repeat split.
Qed.

Lemma methods_without_handle_undefined_witness :
  mrb_timer_posix_signo 1 empty_world = (Undefined, empty_world).
Proof.
  apply (methods_without_handle_undefined test_kernel 1 empty_world). reflexivity.
Defined.

Section ConstructWorld.

Context (p : platform) (k : kernel).

Lemma install_fresh_world self sev clk param w :
  data_ptr w !! self = None ->
  create_errno k (before_create self w) clk (sev_arg sev) = None ->
  install p k self sev clk param w
  = (Ok (mrb_obj_value self), after_create p self sev clk param w).
Proof.
  intros Hself Hk.
  unfold install, bind, get_DATA_PTR, set_DATA_PTR, mrb_malloc, ret. cbn.
  rewrite Hself. cbn.
  unfold after_create, new_data, sev_arg, recorded_signo in *.
  destruct (sigev_signo sev <? 0); unfold timer_create, bind; cbn;
    fold (before_create self w); rewrite Hk; cbn;
    unfold store; cbn.
  all: rewrite lookup_insert_ne by lia.
  all: rewrite lookup_insert_ne by lia.
  all: rewrite lookup_insert_eq; cbn.
  all: reflexivity.
Qed.

Lemma after_create_has_handle self sev clk param w :
  has_handle self (brk w) (new_data p sev clk param w) (next_timer w)
    (after_create p self sev clk param w).
Proof.
  unfold has_handle, after_create. cbn.
  rewrite !lookup_insert_eq. split; [reflexivity|]. split; [reflexivity|].
  rewrite lookup_insert_ne by lia. apply lookup_insert_eq.
Qed.

Lemma after_create_frame self sev clk param w a :
  a <> brk w -> a <> brk w + 1 ->
  heap (after_create p self sev clk param w) !! a = heap w !! a.
Proof.
  intros H1 H2. unfold after_create. cbn. now rewrite !lookup_insert_ne by congruence.
Qed.

Lemma parse_signal_pure h w r w' :
  parse_signal p h w = (r, w') -> w' = w.
Proof.
  unfold parse_signal.
  destruct (mrb_bool _); [|now intros [= _ <-]].
  destruct (mrb_nil_p _); [now intros [= _ <-]|].
  unfold bind, lift. destruct (mrb_to_signo p _) as [n| |]; try now intros [= _ <-].
  destruct (n <=? 0); now intros [= _ <-].
Qed.

(** Inside the range of [pthread_t] the conversion is the integral part. *)
Lemma pthread_of_float_fits m e :
  fits_pthread p m e -> pthread_of_float p m e = float_trunc m e.
Proof.
  unfold fits_pthread, pthread_of_float. intros [H0 H1]. cbv zeta.
  destruct (Z.leb_spec 0 (float_trunc m e)); [|lia].
  destruct (Z.ltb_spec (float_trunc m e) (2 ^ LONG_BIT p)); [reflexivity|lia].
Qed.

(** Outside it the thread id is the platform's: on x86-64 a float of
    [3 * 2 ^ 63] leaves 0, one below [- 2 ^ 63] leaves [2 ^ 63], and so
    does NaN. *)
Example conversion_outside_pthread_range :
  pthread_of_float linux_x86_64 3 63 = 0
  /\ pthread_of_float linux_x86_64 (- (2 ^ 52 + 1)) 11 = 2 ^ 63
  /\ pthread_of_float linux_x86_64 (-1) 0 = 2 ^ 64 - 1
  /\ pthread_of_special linux_x86_64 FNaN = 2 ^ 63.
Proof. repeat split. Qed.

Lemma parse_thread_float h sev m e w :
  has_SIGEV_THREAD p = true ->
  h !! MRB_TIMER_POSIX_KEY_THREAD_ID = Some (mrb_float_value m e) ->
  parse_thread p h sev w
  = (Ok (sev_thread sev (brk w), Some (brk w)),
     snd (mrb_malloc (Blk_param (thread_param p sev m e)) w)).
Proof.
  intros Hp Ht. unfold parse_thread, mrb_hash_get. rewrite Hp, Ht. reflexivity.
Qed.

(** Parsing the options only ever adds the context block. *)
Lemma parse_options_frame options sev clk prm w w1 :
  parse_options p options w = (Ok (sev, clk, prm), w1) ->
  data_ptr w1 = data_ptr w /\ ktimers w1 = ktimers w
  /\ next_timer w1 = next_timer w /\ kcalls w1 = kcalls w
  /\ brk w <= brk w1
  /\ (forall a, a < brk w -> heap w1 !! a = heap w !! a)
  /\ (fresh_from w -> fresh_from w1).
Proof.
  unfold parse_options, ret.
  destruct options as [| | | | | | | |h|]; try (intros [= <- <- <- <-]; split_and!; first [lia | reflexivity | (intros; reflexivity) | exact (fun H => H)]).
  unfold bind.
  destruct (parse_signal p h w) as [[sev0| |] w0] eqn:Hs; try discriminate.
  apply parse_signal_pure in Hs. subst w0.
  unfold parse_thread.
  destruct (has_SIGEV_THREAD p);
    [|intros [= <- <- <- <-]; split_and!;
      first [lia | reflexivity | (intros; reflexivity) | exact (fun H => H)]].
  destruct (mrb_hash_get h MRB_TIMER_POSIX_KEY_THREAD_ID);
    try (intros [= <- <- <- <-]; split_and!; first [lia | reflexivity | (intros; reflexivity) | exact (fun H => H)]).
  all: unfold set_thread, bind, mrb_malloc; cbn; intros [= <- <- <- <-]; cbn;
    split_and!; try reflexivity; try lia;
    [ intros a Ha; now rewrite lookup_insert_ne by lia
    | intros [H1 H2]; split; cbn; [|exact H2];
      intros a Ha; rewrite lookup_insert_ne by lia; apply H1; lia ].
Qed.

End ConstructWorld.

(** * Further properties of construction *)

Section ConstructMore.

Context (p : platform) (k : kernel).

(** Construction on an object without a handle, once the options parse. *)
Lemma construct_fresh self options sev clk prm w w1 :
  parse_options p options w = (Ok (sev, clk, prm), w1) ->
  data_ptr w !! self = None ->
  create_errno k (before_create self w1) clk (sev_arg sev) = None ->
  mrb_timer_posix_init p k self options w
  = (Ok (mrb_obj_value self), after_create p self sev clk prm w1).
Proof.
  intros Hp Hs Hk.
  destruct (parse_options_frame p options sev clk prm w w1 Hp) as (Hd & _).
  unfold mrb_timer_posix_init, bind. rewrite Hp. cbn [fst snd].
  apply install_fresh_world; [congruence|exact Hk].
Qed.

Lemma parse_options_plain h sev w :
  parse_signal p h w = (Ok sev, w) ->
  is_float (mrb_hash_get h MRB_TIMER_POSIX_KEY_THREAD_ID) = false ->
  parse_options p (mrb_hash_value h) w = (Ok (sev, parse_clock p h, None), w).
Proof.
  intros Hs Hf. unfold parse_options, bind. rewrite Hs.
  rewrite parse_thread_not_float by exact Hf. reflexivity.
Qed.

Lemma parse_options_thread h sev m e w :
  has_SIGEV_THREAD p = true ->
  h !! MRB_TIMER_POSIX_KEY_THREAD_ID = Some (mrb_float_value m e) ->
  parse_signal p h w = (Ok sev, w) ->
  parse_options p (mrb_hash_value h) w
  = (Ok (sev_thread sev (brk w), parse_clock p h, Some (brk w)),
     snd (mrb_malloc (Blk_param (thread_param p sev m e)) w)).
Proof.
  intros Hp Ht Hs. unfold parse_options, bind. rewrite Hs.
  rewrite (parse_thread_float p h sev m e w Hp Ht). reflexivity.
Qed.

(** Construction with a float [thread_id]. *)
Lemma construct_with_thread self h sev m e w :
  has_SIGEV_THREAD p = true ->
  h !! MRB_TIMER_POSIX_KEY_THREAD_ID = Some (mrb_float_value m e) ->
  parse_signal p h w = (Ok sev, w) ->
  data_ptr w !! self = None ->
  (forall w0 s, create_errno k w0 (parse_clock p h) s = None) ->
  exists w',
    mrb_timer_posix_init p k self (mrb_hash_value h) w = (Ok (mrb_obj_value self), w')
    /\ kcalls w'
       = K_timer_create (parse_clock p h)
           (if sigev_signo sev <? 0 then None else Some (sev_thread sev (brk w)))
         :: kcalls w
    /\ heap w' !! brk w = Some (Blk_param (thread_param p sev m e))
    /\ has_handle self (brk w + 1)
         {| timer_ptr := brk w + 1 + 1; timer_signo := recorded_signo p sev;
            clockid := parse_clock p h; thread_param_ptr := Some (brk w) |}
         (next_timer w) w'.
Proof.
  intros Hp Ht Hs Hself Hk.
  pose proof (parse_options_thread h sev m e w Hp Ht Hs) as Hparse.
  eexists. split.
  { eapply construct_fresh; [exact Hparse|exact Hself|apply Hk]. }
  split; [reflexivity|]. split.
  - rewrite after_create_frame by (cbn; lia). cbn. apply lookup_insert_eq.
  - apply (after_create_has_handle p self (sev_thread sev (brk w)) (parse_clock p h)
             (Some (brk w)) (snd (mrb_malloc (Blk_param (thread_param p sev m e)) w))).
Qed.

End ConstructMore.

(** X14: A [signal] that does not resolve to a number above 0 makes the
    constructor raise before it frees, allocates or calls anything: the
    world, and with it the handle the object had, is as before. *)
Theorem construct_refuses_signal_before_allocating
    (p : platform) (k : kernel) (self : Z) (h : gmap hkey mrb_value)
    (v : mrb_value) (w : world) :
  h !! MRB_TIMER_POSIX_KEY_SIGNO = Some v ->
  v <> mrb_nil_value ->
  (forall n, mrb_to_signo p v = Ok n -> n <= 0 ->
     mrb_timer_posix_init p k self (mrb_hash_value h) w
     = (Raise E_ARGUMENT_ERROR "Invalid value for signal", w))
  /\ (forall cls msg, mrb_to_signo p v = Raise cls msg ->
      mrb_timer_posix_init p k self (mrb_hash_value h) w = (Raise cls msg, w)).
Proof.
  intros Hv Hnn.
  assert (Hnil : mrb_nil_p v = false) by (destruct v; [congruence|reflexivity..]).
  assert (Hsig : parse_signal p h w
                 = bind (lift (mrb_to_signo p v))
                     (fun sno => if sno <=? 0
                                 then mrb_raise E_ARGUMENT_ERROR "Invalid value for signal"
                                 else ret (sev_signal sno)) w).
  { unfold parse_signal, has_key, mrb_hash_get. rewrite Hv.
    cbn -[mrb_to_signo mrb_nil_p]. now rewrite Hnil. }
  split.
  - intros n Hn Hle. unfold mrb_timer_posix_init, parse_options, bind at 1 2.
    rewrite Hsig. unfold bind, lift. rewrite Hn.
    destruct (Z.leb_spec n 0); [reflexivity|lia].
  - intros cls msg Hr. unfold mrb_timer_posix_init, parse_options, bind at 1 2.
    rewrite Hsig. unfold bind, lift. rewrite Hr. reflexivity.
Qed.

Lemma construct_refuses_signal_before_allocating_witness :
  mrb_timer_posix_init linux_x86_64 test_kernel 1
    (mrb_hash_value {[MRB_TIMER_POSIX_KEY_SIGNO := mrb_str_value "EXIT"]}) constructed
  = (Raise E_ARGUMENT_ERROR "Invalid value for signal", constructed)
  /\ mrb_timer_posix_init linux_x86_64 test_kernel 1
       (mrb_hash_value {[MRB_TIMER_POSIX_KEY_SIGNO := mrb_str_value "BOGUS"]}) constructed
     = (Raise E_ARGUMENT_ERROR "unsupported signal", constructed).
Proof.
  split.
  - refine (proj1 (construct_refuses_signal_before_allocating linux_x86_64 test_kernel 1
              {[MRB_TIMER_POSIX_KEY_SIGNO := mrb_str_value "EXIT"]}
              (mrb_str_value "EXIT") constructed _ _) 0 _ _).
    + vm_compute. reflexivity.
    + discriminate.
    + reflexivity.
    + lia.
  - refine (proj2 (construct_refuses_signal_before_allocating linux_x86_64 test_kernel 1
              {[MRB_TIMER_POSIX_KEY_SIGNO := mrb_str_value "BOGUS"]}
              (mrb_str_value "BOGUS") constructed _ _) _ _ _).
    + vm_compute. reflexivity.
    + discriminate.
    + reflexivity.
Defined.



(** X16: A float [thread_id] that has a value in [pthread_t], without
    [signal]: the context is allocated, with [SIGALRM] and the integral part
    of the float in it, but [timer_create] is given no sigevent, so the
    kernel is not asked for thread delivery. *)
Theorem thread_id_without_signal_keeps_default_delivery
    (p : platform) (k : kernel) (self : Z) (h : gmap hkey mrb_value)
    (m e : Z) (w : world) :
  has_SIGEV_THREAD p = true ->
  h !! MRB_TIMER_POSIX_KEY_THREAD_ID = Some (mrb_float_value m e) ->
  fits_pthread p m e ->
  h !! MRB_TIMER_POSIX_KEY_SIGNO = None ->
  data_ptr w !! self = None ->
  (forall w0 s, create_errno k w0 (parse_clock p h) s = None) ->
  exists w',
    mrb_timer_posix_init p k self (mrb_hash_value h) w = (Ok (mrb_obj_value self), w')
    /\ kcalls w' = K_timer_create (parse_clock p h) None :: kcalls w
    /\ heap w' !! brk w
       = Some (Blk_param {| prm_signo := SIGALRM p;
                            prm_thread_id := float_trunc m e |})
    /\ has_handle self (brk w + 1)
         {| timer_ptr := brk w + 1 + 1; timer_signo := SIGALRM p;
            clockid := parse_clock p h; thread_param_ptr := Some (brk w) |}
         (next_timer w) w'.
Proof.
  intros Hp Ht Hfit Hn Hself Hk.
  rewrite <- (pthread_of_float_fits p m e Hfit).
  exact (construct_with_thread p k self h sev_init m e w Hp Ht
           (parse_signal_absent p h w Hn) Hself Hk).
Qed.

Lemma thread_id_without_signal_keeps_default_delivery_witness :
  exists w',
    mrb_timer_posix_init linux_x86_64 test_kernel 1 (mrb_hash_value thread_only) empty_world
    = (Ok (mrb_obj_value 1), w')
    /\ kcalls w' = [K_timer_create 0 None]
    /\ heap w' !! 1 = Some (Blk_param {| prm_signo := 14; prm_thread_id := 5 |})
    /\ has_handle 1 2
         {| timer_ptr := 3; timer_signo := 14; clockid := 0; thread_param_ptr := Some 1 |}
         1 w'.
Proof.
  refine (thread_id_without_signal_keeps_default_delivery linux_x86_64 test_kernel 1
            thread_only 5 0 empty_world _ _ _ _ _ _).
  - reflexivity.
  - vm_compute. reflexivity.
  - unfold fits_pthread, float_trunc. simpl. lia.
  - vm_compute. reflexivity.
  - reflexivity.
  - intros w0 s. vm_compute. reflexivity.
Defined.

(** X17: A float [thread_id] that has a value in [pthread_t], with a
    [signal] that resolves to [n], or with [signal: nil] (then [n] is 0):
    [timer_create] is given a [SIGEV_THREAD] sigevent with [n] and the
    address of the context, and the context holds [n] and the integral part
    of the float as the thread id. *)
Theorem thread_id_with_signal_sets_thread_delivery
    (p : platform) (k : kernel) (self : Z) (h : gmap hkey mrb_value)
    (v : mrb_value) (n m e : Z) (w : world) :
  has_SIGEV_THREAD p = true ->
  h !! MRB_TIMER_POSIX_KEY_THREAD_ID = Some (mrb_float_value m e) ->
  fits_pthread p m e ->
  h !! MRB_TIMER_POSIX_KEY_SIGNO = Some v ->
  (v = mrb_nil_value /\ n = 0) \/ (v <> mrb_nil_value /\ mrb_to_signo p v = Ok n /\ 0 < n) ->
  data_ptr w !! self = None ->
  (forall w0 s, create_errno k w0 (parse_clock p h) s = None) ->
  exists w',
    mrb_timer_posix_init p k self (mrb_hash_value h) w = (Ok (mrb_obj_value self), w')
    /\ kcalls w'
       = K_timer_create (parse_clock p h)
           (Some {| sigev_notify := SIGEV_THREAD; sigev_signo := n;
                    sival_ptr := Some (brk w); sigev_notify_function := true |})
         :: kcalls w
    /\ heap w' !! brk w
       = Some (Blk_param {| prm_signo := n; prm_thread_id := float_trunc m e |})
    /\ has_handle self (brk w + 1)
         {| timer_ptr := brk w + 1 + 1; timer_signo := n;
            clockid := parse_clock p h; thread_param_ptr := Some (brk w) |}
         (next_timer w) w'.
Proof.
  intros Hp Ht Hfit Hv Hcase Hself Hk.
  assert (Hs : exists sev, parse_signal p h w = (Ok sev, w)
                           /\ sigev_signo sev = n /\ 0 <= n).
  { destruct Hcase as [[-> ->]|(Hnn & Hn & Hpos)].
    - exists sev_none. split; [now apply parse_signal_nil|]. split; [reflexivity|lia].
    - exists (sev_signal n). split; [now apply parse_signal_resolved with v|].
      split; [reflexivity|lia]. }
  destruct Hs as (sev & Hs & Hsig & Hn0).
  destruct (construct_with_thread p k self h sev m e w Hp Ht Hs Hself Hk)
    as (w' & Hi & Hc & Hb & Hh).
  exists w'. split; [exact Hi|].
  rewrite <- (pthread_of_float_fits p m e Hfit).
  unfold thread_param, recorded_signo, sev_thread in *. rewrite Hsig in *.
  destruct (Z.ltb_spec n 0); [lia|].
  destruct (Z.eqb_spec n (-1)); [lia|].
  split; [exact Hc|]. split; [exact Hb|exact Hh].
Qed.

Lemma thread_id_with_signal_sets_thread_delivery_witness :
  exists w',
    mrb_timer_posix_init linux_x86_64 test_kernel 1
      (mrb_hash_value thread_and_signal) empty_world
    = (Ok (mrb_obj_value 1), w')
    /\ kcalls w'
       = [K_timer_create 0
            (Some {| sigev_notify := SIGEV_THREAD; sigev_signo := 10;
                     sival_ptr := Some 1; sigev_notify_function := true |})]
    /\ heap w' !! 1 = Some (Blk_param {| prm_signo := 10; prm_thread_id := 5 |})
    /\ has_handle 1 2
         {| timer_ptr := 3; timer_signo := 10; clockid := 0; thread_param_ptr := Some 1 |}
         1 w'.
Proof.
  refine (thread_id_with_signal_sets_thread_delivery linux_x86_64 test_kernel 1
            thread_and_signal (mrb_str_value "USR1") 10 5 0 empty_world _ _ _ _ _ _ _).
  - reflexivity.
  - vm_compute. reflexivity.
  - unfold fits_pthread, float_trunc. simpl. lia.
  - vm_compute. reflexivity.
  - right. split; [discriminate|]. split; [reflexivity|lia].
  - reflexivity.
  - intros w0 s. vm_compute. reflexivity.
Defined.

(** * Further properties of the resources *)

(** X18: [mrb_timer_posix_free] on a handle that is all there deletes its
    kernel timer with one call, frees the timer cell, the context if the
    handle has one, and the handle; every other block stays. *)
Theorem destroy_releases_handle (data : Z) (d : mrb_timer_posix_data) (id : Z)
    (w : world) :
  heap w !! data = Some (Blk_data (Some d)) ->
  heap w !! timer_ptr d = Some (Blk_timer (Some id)) ->
  params_live d w ->
  exists w',
    mrb_timer_posix_free data w = (Ok tt, w')
    /\ heap w' !! data = None
    /\ heap w' !! timer_ptr d = None
    /\ (forall prm, thread_param_ptr d = Some prm -> heap w' !! prm = None)
    /\ (forall a, a <> data -> a <> timer_ptr d -> thread_param_ptr d <> Some a ->
          heap w' !! a = heap w !! a)
    /\ ktimers w' = delete id (ktimers w)
    /\ kcalls w' = K_timer_delete id :: kcalls w
    /\ data_ptr w' = data_ptr w.
Proof.
  intros Hd Ht Hprm.
  destruct (free_releases data d id w Hd Ht Hprm)
    as (w' & Hfree & Hheap & Hkt & Hkc & _ & _ & Hdp).
  assert (Hne : timer_ptr d <> data) by (intros E; rewrite E in Ht; congruence).
  exists w'. split; [exact Hfree|]. rewrite Hheap.
  split; [apply lookup_delete_eq|].
  split.
  { rewrite lookup_delete_ne by congruence.
    destruct (thread_param_ptr d) as [prm|] eqn:E.
    - destruct (Hprm prm E) as [q Hq].
      rewrite lookup_delete_ne by (intros E'; rewrite E' in Hq; congruence).
      apply lookup_delete_eq.
    - apply lookup_delete_eq. }
  split.
  { intros prm Hp. rewrite Hp.
    destruct (Hprm prm Hp) as [q Hq].
    rewrite lookup_delete_ne by (intros E'; rewrite E' in Hd; congruence).
    apply lookup_delete_eq. }
  split.
  { intros a H1 H2 H3. rewrite lookup_delete_ne by congruence.
    destruct (thread_param_ptr d) as [prm|].
    - rewrite !lookup_delete_ne by congruence. reflexivity.
    - rewrite lookup_delete_ne by congruence. reflexivity. }
  split; [exact Hkt|]. split; [exact Hkc|exact Hdp].
Qed.

Section ReconstructMore.

Context (p : platform) (k : kernel).

(** Re-construction up to [timer_create]: the options are parsed, the old
    handle is released, [DATA_PTR] is NULL. *)
Lemma reconstruct_path self options sev clk prm data d id w w1 :
  has_handle self data d id w ->
  params_live d w ->
  fresh_from w ->
  parse_options p options w = (Ok (sev, clk, prm), w1) ->
  exists w2,
    mrb_timer_posix_init p k self options w = install p k self sev clk prm w2
    /\ data_ptr w2 !! self = None
    /\ brk w2 = brk w1 /\ next_timer w2 = next_timer w
    /\ kcalls w2 = K_timer_delete id :: kcalls w
    /\ ktimers w2 = delete id (ktimers w)
    /\ heap w2 !! data = None
    /\ heap w2 !! timer_ptr d = None
    /\ (forall q, thread_param_ptr d = Some q -> heap w2 !! q = None)
    /\ (forall a, brk w1 <= a -> heap w2 !! a = None)
    /\ data < brk w1 /\ timer_ptr d < brk w1.
Proof.
  intros (Hs & Hd & Ht) Hprm Hfresh Hp.
  destruct (parse_options_frame p options sev clk prm w w1 Hp)
    as (Fd & Fk & Fn & Fc & Fb & Fh & Ff).
  destruct (Ff Hfresh) as [Hfresh1 _]. destruct Hfresh as [Hfresh _].
  assert (Hlt : forall a b, heap w !! a = Some b -> a < brk w).
  { intros a b Ha. destruct (Z.lt_ge_cases a (brk w)) as [|Hge]; [assumption|].
    rewrite (Hfresh a Hge) in Ha. discriminate. }
  pose proof (Hlt _ _ Hd) as Ld. pose proof (Hlt _ _ Ht) as Lt.
  assert (Hd1 : heap w1 !! data = Some (Blk_data (Some d))) by (rewrite Fh; assumption).
  assert (Ht1 : heap w1 !! timer_ptr d = Some (Blk_timer (Some id)))
    by (rewrite Fh; assumption).
  assert (Hprm1 : forall q, thread_param_ptr d = Some q ->
                    exists b, heap w1 !! q = Some (Blk_param b)).
  { intros q Hq. destruct (Hprm q Hq) as [b Hb]. exists b.
    rewrite Fh; [exact Hb|]. eapply Hlt. exact Hb. }
  destruct (free_releases data d id w1 Hd1 Ht1 Hprm1)
    as (wf & Hfree & Hheap & Hkt & Hkc & Hbrk & Hnt & Hdp).
  assert (Hne : timer_ptr d <> data) by (intros E; rewrite E in Ht; congruence).
  eexists. split.
  { unfold mrb_timer_posix_init, bind. rewrite Hp. cbn [fst snd].
    apply (install_releases_first p k self sev clk prm data w1 wf); [congruence|exact Hfree]. }
  cbn. split; [apply lookup_delete_eq|].
  split; [exact Hbrk|]. split; [congruence|]. split; [congruence|].
  split; [congruence|]. rewrite Hheap.
  split; [apply lookup_delete_eq|].
  split.
  { rewrite lookup_delete_ne by congruence.
    destruct (thread_param_ptr d) as [q|] eqn:E.
    - destruct (Hprm1 q eq_refl) as [b Hb].
      rewrite lookup_delete_ne by (intros E'; rewrite E' in Hb; congruence).
      apply lookup_delete_eq.
    - apply lookup_delete_eq. }
  split.
  { intros q Hq. rewrite Hq. destruct (Hprm1 q Hq) as [b Hb].
    rewrite lookup_delete_ne by (intros E'; rewrite E' in Hd1; congruence).
    apply lookup_delete_eq. }
  split; [|lia].
  intros a Ha. rewrite lookup_delete_ne by lia.
  destruct (thread_param_ptr d) as [q|] eqn:E.
  - destruct (Hprm q E) as [b Hb]. pose proof (Hlt _ _ Hb).
    rewrite !lookup_delete_ne by lia. now apply Hfresh1.
  - rewrite lookup_delete_ne by lia. now apply Hfresh1.
Qed.

End ReconstructMore.

(** X19: Constructing again on an object that has a handle: the old kernel
    timer is deleted before the new one is created, the old blocks are
    freed, the object gets a new handle, and as many timers are live as
    before. *)
Theorem reconstruct_releases_previous_handle
    (p : platform) (k : kernel) (self : Z) (options : mrb_value)
    (sev : sigevent) (clk : Z) (prm : option Z)
    (data : Z) (d : mrb_timer_posix_data) (id : Z) (t : ktimer) (w w1 : world) :
  has_handle self data d id w ->
  params_live d w ->
  fresh_from w ->
  ktimers w !! id = Some t ->
  parse_options p options w = (Ok (sev, clk, prm), w1) ->
  (forall w0 s, create_errno k w0 clk s = None) ->
  exists w',
    mrb_timer_posix_init p k self options w = (Ok (mrb_obj_value self), w')
    /\ kcalls w' = K_timer_create clk (sev_arg sev) :: K_timer_delete id :: kcalls w
    /\ ktimers w' !! id = None
    /\ heap w' !! data = None
    /\ heap w' !! timer_ptr d = None
    /\ (forall q, thread_param_ptr d = Some q -> heap w' !! q = None)
    /\ has_handle self (brk w1)
         {| timer_ptr := brk w1 + 1; timer_signo := recorded_signo p sev;
            clockid := clk; thread_param_ptr := prm |}
         (next_timer w) w'
    /\ live_timers w' = live_timers w.
Proof.
  intros Hh Hprm Hfresh Hid Hp Hk.
  destruct (reconstruct_path p k self options sev clk prm data d id w w1 Hh Hprm Hfresh Hp)
    as (w2 & Hinit & Hs2 & Hbrk & Hnt & Hkc & Hkt & Hd2 & Ht2 & Hq2 & _ & Ld & Lt).
  assert (Hidlt : id < next_timer w).
  { destruct Hfresh as [_ Hf]. destruct (Z.lt_ge_cases id (next_timer w)) as [|Hge];
      [assumption|]. rewrite (Hf id Hge) in Hid. discriminate. }
  assert (Hnone : ktimers w !! next_timer w = None)
    by (destruct Hfresh as [_ Hf]; apply Hf; lia).
  exists (after_create p self sev clk prm w2). split.
  { rewrite Hinit. apply install_fresh_world; [exact Hs2|apply Hk]. }
  pose proof (after_create_has_handle p self sev clk prm w2) as Hnew.
  unfold new_data in Hnew. rewrite Hbrk, Hnt in Hnew.
  split; [cbn; now rewrite Hkc|].
  split; [cbn; rewrite Hkt, Hnt, lookup_insert_ne by lia; apply lookup_delete_eq|].
  split; [rewrite after_create_frame by lia; exact Hd2|].
  split; [rewrite after_create_frame by lia; exact Ht2|].
  split.
  { intros q Hq. pose proof (Hq2 q Hq) as Hn.
    destruct (Z.eq_dec q (brk w2)) as [E|E1]; [|destruct (Z.eq_dec q (brk w2 + 1)) as [E|E2]].
    - destruct Hh as (_ & Hd & _). destruct (Hprm q Hq) as [b Hb].
      destruct Hfresh as [Hf _].
      destruct (parse_options_frame p options sev clk prm w w1 Hp) as (_ & _ & _ & _ & Fb & _).
      rewrite (Hf q) in Hb by lia. discriminate.
    - destruct (Hprm q Hq) as [b Hb]. destruct Hfresh as [Hf _].
      destruct (parse_options_frame p options sev clk prm w w1 Hp) as (_ & _ & _ & _ & Fb & _).
      rewrite (Hf q) in Hb by lia. discriminate.
    - rewrite after_create_frame by assumption. exact Hn. }
  split; [exact Hnew|].
  unfold live_timers. cbn. rewrite Hkt, Hnt.
  rewrite map_size_insert_None by (rewrite lookup_delete_ne by lia; exact Hnone).
  rewrite map_size_delete_Some by (eexists; exact Hid).
  assert (size (ktimers w) <> 0%nat).
  { intros E. apply map_size_empty_inv in E. rewrite E in Hid.
    rewrite lookup_empty in Hid. discriminate. }
  lia.
Qed.

(** X20: When the kernel refuses the new timer on an object that had a handle,
    the old timer and blocks are gone all the same and [DATA_PTR] is NULL:
    the constructor raises, and the object's methods follow a null pointer
    from then on. *)
Theorem failed_reconstruction_leaves_object_unusable
    (p : platform) (k : kernel) (self : Z) (options : mrb_value)
    (sev : sigevent) (clk : Z) (prm : option Z)
    (data : Z) (d : mrb_timer_posix_data) (id e : Z) (w w1 : world) :
  has_handle self data d id w ->
  params_live d w ->
  fresh_from w ->
  parse_options p options w = (Ok (sev, clk, prm), w1) ->
  (forall w0 s, create_errno k w0 clk s = Some e) ->
  exists w',
    mrb_timer_posix_init p k self options w
    = (Raise (E_SYSTEMCALL_ERROR e) "timer_create failed", w')
    /\ kcalls w' = K_timer_create clk (sev_arg sev) :: K_timer_delete id :: kcalls w
    /\ ktimers w' = delete id (ktimers w)
    /\ heap w' !! data = None
    /\ data_ptr w' !! self = None
    /\ mrb_timer_posix_signo self w' = (Undefined, w')
    /\ (forall start interval, -1000 < start ->
          mrb_timer_posix_start k self start interval w' = (Undefined, w')).
Proof.
  intros Hh Hprm Hfresh Hp Hk.
  destruct (reconstruct_path p k self options sev clk prm data d id w w1 Hh Hprm Hfresh Hp)
    as (w2 & Hinit & Hs2 & Hbrk & Hnt & Hkc & Hkt & Hd2 & Ht2 & Hq2 & _ & Ld & Lt).
  eexists. split.
  { rewrite Hinit. apply install_fresh_failure; [exact Hs2|apply Hk]. }
  assert (Hnull : data_ptr (log (K_timer_create clk (sev_arg sev)) (before_create self w2))
                  !! self = None) by (cbn; apply lookup_delete_eq).
  split; [cbn; now rewrite Hkc|].
  split; [exact Hkt|].
  split; [cbn; rewrite !lookup_insert_ne by lia; exact Hd2|].
  split; [exact Hnull|].
  split.
  - unfold mrb_timer_posix_signo, bind. now rewrite (self_data_no_handle _ _ Hnull).
  - intros start interval Hstart. unfold mrb_timer_posix_start.
    destruct (start_itimerspec start interval) as [ts|] eqn:E.
    + unfold bind. now rewrite (self_timer_no_handle _ _ Hnull).
    + apply (start_itimerspec_None start interval) in E. lia.
Qed.

Lemma constructed_heap :
  heap constructed
  = <[1 := Blk_data (Some constructed_data)]> (<[2 := Blk_timer (Some 1)]> ∅).
Proof. vm_compute. reflexivity. Qed.

Lemma constructed_ktimers :
  ktimers constructed
  = <[1 := {| kt_clock := 0; kt_sev := None; kt_spec := zero_spec |}]> ∅.
Proof. vm_compute. reflexivity. Qed.

Lemma constructed_fresh : fresh_from constructed.
Proof.
  split.
  - intros a Ha. change (brk constructed) with 3 in Ha. rewrite constructed_heap.
    rewrite !lookup_insert_ne by lia. apply lookup_empty.
  - intros i Hi. change (next_timer constructed) with 2 in Hi. rewrite constructed_ktimers.
    rewrite lookup_insert_ne by lia. apply lookup_empty.
Qed.

Lemma constructed_params_live : params_live constructed_data constructed.
Proof. intros prm H. discriminate H. Qed.

Lemma arm_argument_error_iff_witness :
  is_argument_error
    (fst (mrb_timer_posix_start test_kernel 1 (-1000) None constructed)) = true.
Proof.
  apply (arm_argument_error_iff test_kernel 1 (-1000) None constructed). lia.
Defined.

Lemma destroy_releases_handle_witness :
  exists w',
    mrb_timer_posix_free 1 constructed = (Ok tt, w')
    /\ heap w' !! 1 = None
    /\ heap w' !! 2 = None
    /\ kcalls w' = K_timer_delete 1 :: kcalls constructed.
Proof.
  destruct (destroy_releases_handle 1 constructed_data 1 constructed)
    as (w' & H1 & H2 & H3 & _ & _ & _ & H4 & _).
  - vm_compute. reflexivity.
  - vm_compute. reflexivity.
  - exact constructed_params_live.
  - exists w'. split; [exact H1|]. split; [exact H2|]. split; [exact H3|exact H4].
Defined.

Lemma reconstruct_releases_previous_handle_witness :
  exists w',
    mrb_timer_posix_init linux_x86_64 test_kernel 1 mrb_nil_value constructed
    = (Ok (mrb_obj_value 1), w')
    /\ kcalls w' = K_timer_create 0 None :: K_timer_delete 1 :: kcalls constructed
    /\ ktimers w' !! 1 = None
    /\ live_timers w' = live_timers constructed.
Proof.
  destruct (reconstruct_releases_previous_handle linux_x86_64 test_kernel 1 mrb_nil_value
              sev_init 0 None 1 constructed_data 1
              {| kt_clock := 0; kt_sev := None; kt_spec := zero_spec |}
              constructed constructed)
    as (w' & H1 & H2 & H3 & _ & _ & _ & _ & H4).
  - exact constructed_has_handle.
  - exact constructed_params_live.
  - exact constructed_fresh.
  - vm_compute. reflexivity.
  - reflexivity.
  - intros w0 s. reflexivity.
  - exists w'. split; [exact H1|]. split; [exact H2|]. split; [exact H3|exact H4].
Defined.

Lemma failed_reconstruction_leaves_object_unusable_witness :
  exists w',
    mrb_timer_posix_init linux_x86_64 test_kernel 1 bad_clock constructed
    = (Raise (E_SYSTEMCALL_ERROR EINVAL) "timer_create failed", w')
    /\ ktimers w' = delete 1 (ktimers constructed)
    /\ mrb_timer_posix_signo 1 w' = (Undefined, w').
Proof.
  destruct (failed_reconstruction_leaves_object_unusable linux_x86_64 test_kernel 1
              bad_clock sev_init 9999 None 1 constructed_data 1 EINVAL
              constructed constructed)
    as (w' & H1 & _ & H2 & _ & _ & H3 & _).
  - exact constructed_has_handle.
  - exact constructed_params_live.
  - exact constructed_fresh.
  - vm_compute. reflexivity.
  - intros w0 s. reflexivity.
  - exists w'. split; [exact H1|]. split; [exact H2|exact H3].
Defined.

(** X21: With a float [thread_id] that has a value in [pthread_t] and a
    [signal] that resolves to [n] (0 for [signal: nil]), the timer the
    kernel holds runs [mrb_timer_posix_thread_func] on the context, and that
    sends signal [n] to the thread whose id is the integral part of the
    float; after the timer is destroyed the context it would read is
    gone. *)
Theorem thread_dispatch_sends_recorded_signal
    (p : platform) (k : kernel) (self : Z) (h : gmap hkey mrb_value)
    (v : mrb_value) (n m e : Z) (w : world) :
  has_SIGEV_THREAD p = true ->
  h !! MRB_TIMER_POSIX_KEY_THREAD_ID = Some (mrb_float_value m e) ->
  fits_pthread p m e ->
  h !! MRB_TIMER_POSIX_KEY_SIGNO = Some v ->
  (v = mrb_nil_value /\ n = 0) \/ (v <> mrb_nil_value /\ mrb_to_signo p v = Ok n /\ 0 < n) ->
  data_ptr w !! self = None ->
  (forall w0 s, create_errno k w0 (parse_clock p h) s = None) ->
  exists w' t sev',
    mrb_timer_posix_init p k self (mrb_hash_value h) w = (Ok (mrb_obj_value self), w')
    /\ ktimers w' !! next_timer w = Some t
    /\ kt_sev t = Some sev'
    /\ sigev_notify sev' = SIGEV_THREAD
    /\ sigev_notify_function sev' = true
    /\ mrb_timer_posix_thread_func (sival_ptr sev') w' = Ok (float_trunc m e, n)
    /\ forall w'', mrb_timer_posix_free (brk w + 1) w' = (Ok tt, w'') ->
         mrb_timer_posix_thread_func (sival_ptr sev') w'' = Undefined.
Proof.
  intros Hp Ht Hfit Hv Hcase Hself Hk.
  assert (Hs : exists sev, parse_signal p h w = (Ok sev, w)
                           /\ sigev_signo sev = n /\ 0 <= n).
  { destruct Hcase as [[-> ->]|(Hnn & Hn & Hpos)].
    - exists sev_none. split; [now apply parse_signal_nil|]. split; [reflexivity|lia].
    - exists (sev_signal n). split; [now apply parse_signal_resolved with v|].
      split; [reflexivity|lia]. }
  destruct Hs as (sev & Hs & Hsig & Hn0).
  pose proof (parse_options_thread p h sev m e w Hp Ht Hs) as Hparse.
  set (w1 := snd (mrb_malloc (Blk_param (thread_param p sev m e)) w)) in *.
  set (sev' := sev_thread sev (brk w)) in *.
  set (w' := after_create p self sev' (parse_clock p h) (Some (brk w)) w1).
  assert (Hinit : mrb_timer_posix_init p k self (mrb_hash_value h) w
                  = (Ok (mrb_obj_value self), w')).
  { eapply construct_fresh; [exact Hparse|exact Hself|apply Hk]. }
  assert (Hblock : heap w' !! brk w = Some (Blk_param (thread_param p sev m e))).
  { unfold w'. rewrite after_create_frame by (cbn; lia). cbn. apply lookup_insert_eq. }
  assert (Harg : sev_arg sev' = Some sev').
  { unfold sev_arg, sev', sev_thread. cbn. rewrite Hsig.
    destruct (Z.ltb_spec n 0); [lia|reflexivity]. }
  exists w', {| kt_clock := parse_clock p h; kt_sev := Some sev'; kt_spec := zero_spec |}, sev'.
  split; [exact Hinit|].
  split; [unfold w'; cbn; rewrite Harg; apply lookup_insert_eq|].
  split; [reflexivity|]. split; [reflexivity|]. split; [reflexivity|].
  split.
  - unfold mrb_timer_posix_thread_func.
    change (sival_ptr sev') with (Some (brk w)). cbv iota. rewrite Hblock.
    unfold thread_param. cbn [prm_thread_id prm_signo]. rewrite Hsig.
    rewrite (pthread_of_float_fits p m e Hfit).
    destruct (Z.eqb_spec n (-1)); [lia|reflexivity].
  - intros w'' Hfree.
    pose proof (after_create_has_handle p self sev' (parse_clock p h) (Some (brk w)) w1)
      as (_ & Hd & Htp).
    fold w' in Hd, Htp. change (brk w1) with (brk w + 1) in *.
    destruct (free_releases (brk w + 1) _ _ w' Hd Htp) as (wf & Hf & Hheap & _).
    { cbn. intros prm [= <-]. eexists. exact Hblock. }
    rewrite Hf in Hfree. injection Hfree as <-.
    unfold mrb_timer_posix_thread_func.
    change (sival_ptr sev') with (Some (brk w)). cbv iota. rewrite Hheap.
    cbn [thread_param_ptr new_data].
    rewrite lookup_delete_ne by lia. rewrite lookup_delete_eq. reflexivity.
Qed.

Lemma thread_dispatch_sends_recorded_signal_witness :
  exists w' t sev',
    mrb_timer_posix_init linux_x86_64 test_kernel 1
      (mrb_hash_value thread_and_signal) empty_world
    = (Ok (mrb_obj_value 1), w')
    /\ ktimers w' !! 1 = Some t
    /\ kt_sev t = Some sev'
    /\ mrb_timer_posix_thread_func (sival_ptr sev') w' = Ok (5, 10).
Proof.
  destruct (thread_dispatch_sends_recorded_signal linux_x86_64 test_kernel 1
              thread_and_signal (mrb_str_value "USR1") 10 5 0 empty_world)
    as (w' & t & sev' & H1 & H2 & H3 & _ & _ & H4 & _).
  - reflexivity.
  - vm_compute. reflexivity.
  - unfold fits_pthread, float_trunc. simpl. lia.
  - vm_compute. reflexivity.
  - right. split; [discriminate|]. split; [reflexivity|lia].
  - reflexivity.
  - intros w0 s. vm_compute. reflexivity.
  - exists w', t, sev'. split; [exact H1|]. split; [exact H2|]. split; [exact H3|exact H4].
Defined.
